(** * helm-push: configuration resolution, push and download flows

    A shallow embedding of [cmd/helmpush/main.go].  Go strings are byte
    sequences and are modelled by [string]; [[]byte] is [list byte]; Go's
    [int] is [Z]; the process environment is a finite map from variable
    names to values; the stored repository file is a finite map from
    repository names to entries; the disk is a finite set of paths.

    The functions of [main.go] are translated one by one and keep their
    names.  What [main.go] imports (net/url, encoding/json, the helm and
    chartmuseum packages, the operating system) is gathered in the class
    [Platform]; the theorems hold for every platform, and [stdlib] puts
    the standard library's net/url and encoding/json, as the module [Go]
    models them, into a platform for the examples. *)

From Stdlib Require Import Strings.String Strings.Ascii Strings.Byte.
From Stdlib Require Import ZArith List Lia DecimalString.
From stdpp Require Import gmap strings list.

Local Open Scope Z_scope.

(** ** Go's built-in values and the packages [strings], [strconv], [fmt] *)

(** [error]: [errorString] is what [errors.New] and [fmt.Errorf] build, a
    message; then the error types of strconv, net/url and encoding/json
    with their fields; [RepositoryNotFound] is the failure of the lookup in
    the stored repositories. *)
Inductive error : Type :=
| errorString (s : string)
| NumError (Func Num Err : string)
| url_Error (Op URL : string) (Err : error)
| SyntaxError
| UnmarshalTypeError (Value : string)
| RepositoryNotFound (name : string).

Inductive result (A : Type) : Type :=
| Ok (a : A)
| Err (e : error).
Arguments Ok {A} a.
Arguments Err {A} e.

#[global] Instance error_eq_dec : EqDecision error.
Proof. solve_decision. Defined.

(** [len(xs)] as a Go [int]. *)
Definition len {A} (xs : list A) : Z := Z.of_nat (length xs).

(** [xs[i]]: [None] stands for the run-time panic "index out of range". *)
Definition index {A} (xs : list A) (i : Z) : option A :=
  if Z.ltb i 0 then None else xs !! Z.to_nat i.

(** [xs[:n]]: [None] stands for the panic "slice bounds out of range". *)
Definition slice_to {A} (xs : list A) (n : Z) : option (list A) :=
  if Z.ltb n 0 || Z.ltb (len xs) n then None else Some (take (Z.to_nat n) xs).

(** [strings.HasPrefix]. *)
Definition strings_HasPrefix (s pre : string) : bool := String.prefix pre s.

(** [strings.Split s sep] for a non-empty separator: the pieces of [s]
    between the non-overlapping occurrences of [sep], found left to right.
    [skip] counts the bytes of a separator still to be passed over and
    [cur] is the piece being read. *)
Fixpoint split_from (sep : string) (skip : nat) (cur s : string) : list string :=
  match s with
  | EmptyString => [cur]
  | String c s' =>
      match skip with
      | S k => split_from sep k cur s'
      | O =>
          if String.prefix sep s
          then cur :: split_from sep (String.length sep - 1) "" s'
          else split_from sep O (cur +:+ String c "") s'
      end
  end.

(** With the empty separator Go splits after each UTF-8 sequence; the bytes
    are given here, which is the same on ASCII text.  [main.go] only splits
    on ["/"]. *)
Definition strings_Split (s sep : string) : list string :=
  match sep with
  | EmptyString => (fun c => String c "") <$> list_ascii_of_string s
  | _ => split_from sep 0 "" s
  end.

(** [strings.Join]. *)
Definition strings_Join (elems : list string) (sep : string) : string :=
  String.concat sep elems.

(** [strconv.Itoa], also the verb [%d] of [fmt]. *)
Definition strconv_Itoa (n : Z) : string := NilZero.string_of_int (Z.to_int n).

(** [strconv.ParseBool]: six spellings of true, six of false, and a syntax
    error with the value [false] for everything else. *)
Definition strconv_ParseBool (str : string) : bool * option error :=
  if bool_decide (str ∈ ["1"; "t"; "T"; "true"; "TRUE"; "True"]) then (true, None)
  else if bool_decide (str ∈ ["0"; "f"; "F"; "false"; "FALSE"; "False"]) then (false, None)
  else (false, Some (NumError "ParseBool" str "invalid syntax")).

(** ** The command's fields and its flags *)

Record pushCmd : Type := mkPushCmd {
  chartName : string;
  chartVersion : string;
  repoName : string;
  username : string;
  password : string;
  accessToken : string;
  contextPath : string;
  useHTTP : bool
}.

(** [&pushCmd{}]: every field has its zero value. *)
Definition pushCmd_zero : pushCmd := mkPushCmd "" "" "" "" "" "" "" false.

Definition set_chartName (v : string) (p : pushCmd) : pushCmd :=
  mkPushCmd v (chartVersion p) (repoName p) (username p) (password p)
            (accessToken p) (contextPath p) (useHTTP p).
Definition set_chartVersion (v : string) (p : pushCmd) : pushCmd :=
  mkPushCmd (chartName p) v (repoName p) (username p) (password p)
            (accessToken p) (contextPath p) (useHTTP p).
Definition set_repoName (v : string) (p : pushCmd) : pushCmd :=
  mkPushCmd (chartName p) (chartVersion p) v (username p) (password p)
            (accessToken p) (contextPath p) (useHTTP p).
Definition set_username (v : string) (p : pushCmd) : pushCmd :=
  mkPushCmd (chartName p) (chartVersion p) (repoName p) v (password p)
            (accessToken p) (contextPath p) (useHTTP p).
Definition set_password (v : string) (p : pushCmd) : pushCmd :=
  mkPushCmd (chartName p) (chartVersion p) (repoName p) (username p) v
            (accessToken p) (contextPath p) (useHTTP p).
Definition set_accessToken (v : string) (p : pushCmd) : pushCmd :=
  mkPushCmd (chartName p) (chartVersion p) (repoName p) (username p) (password p)
            v (contextPath p) (useHTTP p).
Definition set_contextPath (v : string) (p : pushCmd) : pushCmd :=
  mkPushCmd (chartName p) (chartVersion p) (repoName p) (username p) (password p)
            (accessToken p) v (useHTTP p).
Definition set_useHTTP (v : bool) (p : pushCmd) : pushCmd :=
  mkPushCmd (chartName p) (chartVersion p) (repoName p) (username p) (password p)
            (accessToken p) (contextPath p) v.

(** A string flag of the flag set: [f.StringVarP(&p.field, name, shorthand,
    value, usage)].  [store] writes through the bound pointer. *)
Record Flag : Type := StringVarP {
  store : string -> pushCmd -> pushCmd;
  flagName : string;
  shorthand : string;
  defValue : string;
  usage : string
}.

(** The five flags [newPushCmd] declares, in its order. *)
Definition pushFlags : list Flag :=
  [ StringVarP set_chartVersion "version" "v" "" "Override chart version pre-push";
    StringVarP set_username "username" "u" ""
      "Override HTTP basic auth username [$HELM_REPO_USERNAME]";
    StringVarP set_password "password" "p" ""
      "Override HTTP basic auth password [$HELM_REPO_PASSWORD]";
    StringVarP set_accessToken "access-token" "" ""
      "Send token in authorization header [$HELM_REPO_ACCESS_TOKEN]";
    StringVarP set_contextPath "context-path" "" ""
      "ChartMuseum context path [$HELM_REPO_CONTEXT_PATH]" ].

(** What parsing a command line does to the command: the flag library
    stores each flag's default and then, for every occurrence of a declared
    flag, the value given, through that flag's pointer.  An occurrence is a
    long name and a value; names that are not declared store nothing. *)
Definition declare (fs : list Flag) (p : pushCmd) : pushCmd :=
  foldl (fun q f => store f (defValue f) q) p fs.

Definition assign (fs : list Flag) (p : pushCmd) (occ : string * string) : pushCmd :=
  match List.find (fun f => String.eqb (flagName f) (fst occ)) fs with
  | Some f => store f (snd occ) p
  | None => p
  end.

Definition parseFlags (fs : list Flag) (occs : list (string * string)) (p : pushCmd) : pushCmd :=
  foldl (assign fs) (declare fs p) occs.

(** ** ConfigResolver: [setFieldsFromEnv] *)

(** The environment; [os.LookupEnv k] is [env !! k]. *)
Abbreviation Env := (gmap string string).

Definition os_LookupEnv (env : Env) (k : string) : string * bool :=
  match env !! k with
  | Some v => (v, true)
  | None => ("", false)
  end.

Definition setFieldsFromEnv (env : Env) (p : pushCmd) : pushCmd :=
  let p :=
    let '(v, ok) := os_LookupEnv env "HELM_REPO_USERNAME" in
    if ok && String.eqb (username p) "" then set_username v p else p in
  let p :=
    let '(v, ok) := os_LookupEnv env "HELM_REPO_PASSWORD" in
    if ok && String.eqb (password p) "" then set_password v p else p in
  let p :=
    let '(v, ok) := os_LookupEnv env "HELM_REPO_ACCESS_TOKEN" in
    if ok && String.eqb (accessToken p) "" then set_accessToken v p else p in
  let p :=
    let '(v, ok) := os_LookupEnv env "HELM_REPO_CONTEXT_PATH" in
    if ok && String.eqb (contextPath p) "" then set_contextPath v p else p in
  let p :=
    let '(v, ok) := os_LookupEnv env "HELM_REPO_USE_HTTP" in
    if ok then set_useHTTP (fst (strconv_ParseBool v)) p else p in
  p.

(** The precedence rule in the specification's words: the explicit value
    when it is not empty, else the environment's value when the variable
    is set, else empty. *)
Inductive precedence (flag : string) (var : option string) : string -> Prop :=
| precedence_flag : flag ≠ "" -> precedence flag var flag
| precedence_env v : flag = "" -> var = Some v -> precedence flag var v
| precedence_empty : flag = "" -> var = None -> precedence flag var "".

(** ** The collaborators' data *)

(** [url.URL] and [url.Userinfo] of net/url. *)
Record Userinfo : Type := mkUserinfo {
  ui_username : string;
  ui_password : string;
  ui_passwordSet : bool
}.

Record URL : Type := mkURL {
  Scheme : string;
  Opaque : string;
  User : option Userinfo;
  Host : string;
  Path : string;
  RawPath : string;
  OmitHost : bool;
  ForceQuery : bool;
  RawQuery : string;
  Fragment : string;
  RawFragment : string
}.

Definition set_Path (v : string) (u : URL) : URL :=
  mkURL (Scheme u) (Opaque u) (User u) (Host u) v (RawPath u) (OmitHost u)
        (ForceQuery u) (RawQuery u) (Fragment u) (RawFragment u).
Definition set_Scheme (v : string) (u : URL) : URL :=
  mkURL v (Opaque u) (User u) (Host u) (Path u) (RawPath u) (OmitHost u)
        (ForceQuery u) (RawQuery u) (Fragment u) (RawFragment u).

(** Modelled from the spec: package pkg/chartmuseum (the upload and
    download client) is not among the sources.  A client is what
    [cm.NewClient] was given: the repository URL, the basic-auth
    credentials, the access token and the context path. *)
Record Client : Type := mkClient {
  cm_url : string;
  cm_username : string;
  cm_password : string;
  cm_accessToken : string;
  cm_contextPath : string
}.

Definition ClientOption : Type := Client -> Client.
Definition cm_URL (v : string) : ClientOption :=
  fun c => mkClient v (cm_username c) (cm_password c) (cm_accessToken c) (cm_contextPath c).
Definition cm_Username (v : string) : ClientOption :=
  fun c => mkClient (cm_url c) v (cm_password c) (cm_accessToken c) (cm_contextPath c).
Definition cm_Password (v : string) : ClientOption :=
  fun c => mkClient (cm_url c) (cm_username c) v (cm_accessToken c) (cm_contextPath c).
Definition cm_AccessToken (v : string) : ClientOption :=
  fun c => mkClient (cm_url c) (cm_username c) (cm_password c) v (cm_contextPath c).
Definition cm_ContextPath (v : string) : ClientOption :=
  fun c => mkClient (cm_url c) (cm_username c) (cm_password c) (cm_accessToken c) v.
Definition cm_NewClient (opts : list ClientOption) : Client :=
  foldl (fun c o => o c) (mkClient "" "" "" "" "") opts.

(** Modelled from the spec: package pkg/helm is not among the sources.  A
    stored repository is a name with its URL and credentials; a chart has
    a declared version that [SetVersion] replaces in memory. *)
Record Repo : Type := mkRepo {
  repo_Name : string;
  repo_URL : string;
  repo_Username : string;
  repo_Password : string
}.

Record Chart : Type := mkChart {
  chart_Name : string;
  chart_Version : string;
  chart_Files : list (string * list byte)
}.

Definition SetVersion (v : string) (c : Chart) : Chart :=
  mkChart (chart_Name c) v (chart_Files c).

(** [http.Response] as [handlePushResponse] uses it: the status code and
    what [ioutil.ReadAll(resp.Body)] gives, the bytes or a read error. *)
Record Response : Type := mkResponse {
  StatusCode : Z;
  Body : result (list byte)
}.

(** ** The world and the computations on it *)

(** What a flow does that can be seen from outside, in order. *)
Inductive Event : Type :=
| Stdout (s : string)
| DownloadFile (c : Client) (filePath : string)
| UploadChartPackage (c : Client) (chartPackagePath : string)
| MkdirTemp (name : string)
| RemoveAll (path : string)
| BodyClose.

Record World : Type := mkWorld {
  repositories : gmap string Repo;
  disk : gset string;
  trace : list Event
}.

Definition emit (e : Event) (w : World) : World :=
  mkWorld (repositories w) (disk w) (trace w ++ [e]).
Definition set_disk (d : gset string) (w : World) : World :=
  mkWorld (repositories w) d (trace w).
Definition set_repositories (r : gmap string Repo) (w : World) : World :=
  mkWorld r (disk w) (trace w).

(** A call returns or panics. *)
Inductive outcome (A : Type) : Type :=
| Ret (a : A)
| Panic (msg : string).
Arguments Ret {A} a.
Arguments Panic {A} msg.

Definition M (A : Type) : Type := World -> outcome A * World.

Definition ret {A} (a : A) : M A := fun w => (Ret a, w).
Definition panic {A} (msg : string) : M A := fun w => (Panic msg, w).
Definition bind {A B} (c : M A) (k : A -> M B) : M B :=
  fun w => match c w with
           | (Ret a, w') => k a w'
           | (Panic msg, w') => (Panic msg, w')
           end.
Definition log (e : Event) : M unit := fun w => (Ret tt, emit e w).

(** [defer d] before [body]: [d] runs when [body] is left, whether it
    returns or panics; the result is [body]'s, and what [d] returns is
    dropped. *)
Definition defer {A B} (d : M B) (body : M A) : M A :=
  fun w => let '(r, w') := body w in (r, snd (d w')).

Declare Scope go_scope.
Delimit Scope go_scope with go.
Notation "'do' x <- c ; k" := (bind c (fun x => k))
  (at level 10, x name, c at level 100, k at level 200) : go_scope.
Notation "'run' c ; k" := (bind c (fun _ => k))
  (at level 10, c at level 100, k at level 200) : go_scope.
(** [x, err := c; if err != nil { return err }] *)
Notation "'try' x <- c ; k" :=
  (bind c (fun r => match r with Ok x => k | Err err => ret (Some err) end))
  (at level 10, x name, c at level 100, k at level 200) : go_scope.
(** an indexing or slicing expression that may panic *)
Notation "'get' x <- o 'orpanic' msg ; k" :=
  (match o with Some x => k | None => panic msg end)
  (at level 10, x name, o at level 100, msg at level 0, k at level 200) : go_scope.
Local Open Scope go_scope.

Definition fmt_Print (s : string) : M unit := log (Stdout s).
(** [fmt.Printf] on the text its format and arguments make. *)
Definition fmt_Printf (formatted : string) : M unit := log (Stdout formatted).
Definition newline : string := String (ascii_of_nat 10) "".
Definition fmt_Println (s : string) : M unit := log (Stdout (s +:+ newline)).

(** [fmt.Errorf] with the two formats of [main.go]: a text and [%s], and
    [%d], a text and [%s]. *)
Definition fmt_Errorf_s (text arg : string) : error := errorString (text +:+ arg).
Definition fmt_Errorf_d_s (n : Z) (text arg : string) : error :=
  errorString (strconv_Itoa n +:+ text +:+ arg).

(** [fmt] prints a slice of strings between brackets, a space between the
    elements. *)
Definition fmt_Sprint_strings (xs : list string) : string :=
  "[" +:+ strings_Join xs " " +:+ "]".

(** [strings.HasSuffix]. *)
Fixpoint strings_HasSuffix (s suffix : string) : bool :=
  String.eqb s suffix ||
  match s with
  | String _ s' => strings_HasSuffix s' suffix
  | EmptyString => false
  end.

(** [filepath.Base] on a Unix path: ["."] for the empty path, else the last
    element once the trailing slashes are gone, ["/"] when nothing is left. *)
Definition filepath_Base (path : string) : string :=
  if String.eqb path "" then "."
  else match reverse (filter (fun e => e ≠ "") (strings_Split path "/")) with
       | e :: _ => e
       | [] => "/"
       end.

(** [filepath.Join] of a directory and a name, without the cleaning of
    repeated separators and dots that Go adds. *)
Definition filepath_Join (dir name : string) : string :=
  if String.eqb dir "" then name else dir +:+ "/" +:+ name.

(** [prefixAndSuffix] of io/ioutil: the pattern is cut at its last ["*"]. *)
Definition prefixAndSuffix (pattern : string) : result (string * string) :=
  if 1 <? len (strings_Split pattern "/")
  then Err (errorString "pattern contains path separator")
  else match reverse (strings_Split pattern "*") with
       | suffix :: (_ :: _) as before => Ok (strings_Join (reverse before) "*", suffix)
       | _ => Ok (pattern, "")
       end.

(** [os.RemoveAll] leaves the empty path alone and refuses a path that ends
    in a dot ([endsWithDot]); otherwise it removes the path and everything
    below it ([within]), as far as the operating system lets it. *)
Definition endsWithDot (path : string) : bool :=
  String.eqb path "." || strings_HasSuffix path "/.".

Definition within (path q : string) : bool :=
  String.eqb q path || String.prefix (path +:+ "/") q.

(** Modelled from the spec: [helm.GetRepoByName] of the absent package
    pkg/helm looks the name up in the stored repositories and fails when
    there is no such entry. *)
Definition helm_GetRepoByName (name : string) : M (result Repo) :=
  fun w =>
    match repositories w !! name with
    | Some r => (Ret (Ok r), w)
    | None => (Ret (Err (RepositoryNotFound name)), w)
    end.

(** ** What [main.go] imports *)

(** The packages and the outside world [main.go] calls into.
    - [url_Parse], [URL_String]: [url.Parse] and the method [String] of
      net/url.
    - [json_Unmarshal]: [json.Unmarshal] into
      [struct { Error string `json:"error"` }]; the field after decoding,
      and the decoder's error.
    - [helm_GetChartByName]: the chart found under a name, or the error of
      reading it.
    - [helm_CreateChartPackage]: the packaging step; from the chart, the
      output directory and the disk, the path of the package or an error,
      and the disk afterwards.
    - [cm_UploadChartPackage], [cm_DownloadFile]: the remote server's
      answer to a client's request, or the transport's error.
    - [os_TempDir]: the system's directory for temporary files.
    - [os_MkdirRandom]: for a directory, a prefix, a suffix and the disk,
      the random number under which [ioutil.TempDir] could create a new
      directory, or the error of creating it.
    - [os_RemoveAll_fault]: for a path to remove and the disk, [None] when
      the operating system removes the whole tree, else the first error
      it met and the entries it could not remove. *)
Class Platform : Type := {
  url_Parse : string -> result URL;
  URL_String : URL -> string;
  json_Unmarshal : list byte -> string * option error;
  helm_GetChartByName : string -> result Chart;
  helm_CreateChartPackage : Chart -> string -> gset string -> result string * gset string;
  cm_UploadChartPackage : Client -> string -> result Response;
  cm_DownloadFile : Client -> string -> result (list byte);
  os_TempDir : string;
  os_MkdirRandom : string -> string -> string -> gset string -> result N;
  os_RemoveAll_fault : string -> gset string -> option (error * gset string)
}.

Section Flows.
Context `{Platform}.

(** [ioutil.TempDir]: the directory [dir] (the system's when empty) gets a
    new entry named prefix, random decimal number, suffix. *)
Definition ioutil_TempDir (dir pattern : string) : M (result string) :=
  fun w =>
    let dir := if String.eqb dir "" then os_TempDir else dir in
    match prefixAndSuffix pattern with
    | Err e => (Ret (Err e), w)
    | Ok (pre, suf) =>
        match os_MkdirRandom dir pre suf (disk w) with
        | Err e => (Ret (Err e), w)
        | Ok r =>
            let name :=
              filepath_Join dir (pre +:+ NilZero.string_of_uint (N.to_uint r) +:+ suf) in
            (Ret (Ok name), emit (MkdirTemp name) (set_disk ({[name]} ∪ disk w) w))
        end
    end.

(** What removing [path] leaves of the disk [d]: everything outside
    [path], and of [path] and what is below it the entries the operating
    system could not remove. *)
Definition remaining (path : string) (d : gset string) : gset string :=
  match os_RemoveAll_fault path d with
  | None => filter (fun q => within path q = false) d
  | Some (_, stuck) => filter (fun q => within path q = false ∨ q ∈ stuck) d
  end.

(** [os.RemoveAll]: nothing to do for the empty path, an error for a path
    that ends in a dot; otherwise the tree is removed as far as it can be
    and the first error met, if any, is returned. *)
Definition os_RemoveAll (path : string) : M (option error) :=
  fun w =>
    if String.eqb path "" then (Ret None, w)
    else if endsWithDot path
    then (Ret (Some (errorString ("RemoveAll " +:+ path +:+ ": invalid argument"))), w)
    else (Ret (match os_RemoveAll_fault path (disk w) with
               | None => None
               | Some (e, _) => Some e
               end),
          emit (RemoveAll path) (set_disk (remaining path (disk w)) w)).

Definition CreateChartPackage (chart : Chart) (outDir : string) : M (result string) :=
  fun w =>
    let '(r, d) := helm_CreateChartPackage chart outDir (disk w) in
    (Ret r, set_disk d w).

Definition client_UploadChartPackage (c : Client) (path : string) : M (result Response) :=
  run log (UploadChartPackage c path);
  ret (cm_UploadChartPackage c path).

Definition client_DownloadFile (c : Client) (filePath : string) : M (result (list byte)) :=
  run log (DownloadFile c filePath);
  ret (cm_DownloadFile c filePath).

(** *** ResponseInterpreter *)

Definition handlePushResponse (resp : Response) : M (option error) :=
  if negb (StatusCode resp =? 201) then
    defer (log BodyClose)
      (try b <- ret (Body resp);
       let '(er_Error, err) := json_Unmarshal b in
       if bool_decide (err ≠ None) || String.eqb er_Error "" then
         ret (Some (fmt_Errorf_d_s (StatusCode resp)
                      ": could not properly parse response JSON: "
                      (string_of_list_byte b)))
       else
         ret (Some (fmt_Errorf_d_s (StatusCode resp) ": " er_Error)))
  else
    run fmt_Println "Done.";
    ret None.

(** *** PushFlow *)

Definition push (p : pushCmd) : M (option error) :=
  try repo <- helm_GetRepoByName (repoName p);
  try chart <- ret (helm_GetChartByName (chartName p));
  (* version override *)
  let chart :=
    if negb (String.eqb (chartVersion p) "") then SetVersion (chartVersion p) chart
    else chart in
  (* username/password override(s) *)
  let username0 := repo_Username repo in
  let password0 := repo_Password repo in
  let username1 := if negb (String.eqb (username p) "") then username p else username0 in
  let password1 := if negb (String.eqb (password p) "") then password p else password0 in
  let client :=
    cm_NewClient [ cm_URL (repo_URL repo); cm_Username username1; cm_Password password1;
                   cm_AccessToken (accessToken p); cm_ContextPath (contextPath p) ] in
  try tmp <- ioutil_TempDir "" "helm-push-";
  defer (os_RemoveAll tmp)
    (try chartPackagePath <- CreateChartPackage chart tmp;
     run fmt_Printf ("Pushing " +:+ filepath_Base chartPackagePath +:+ " to "
                     +:+ repoName p +:+ "..." +:+ newline);
     try resp <- client_UploadChartPackage client chartPackagePath;
     handlePushResponse resp).

(** *** DownloadFlow *)

Definition download (p : pushCmd) (fileURL : string) : M (option error) :=
  run fmt_Println fileURL;
  try parsedURL <- ret (url_Parse fileURL);
  run fmt_Println (Path parsedURL);
  let parts := strings_Split (Path parsedURL) "/" in
  let numParts := len parts in
  if numParts <=? 1 then ret (Some (fmt_Errorf_s "invalid file url: " fileURL))
  else
    run fmt_Println (fmt_Sprint_strings parts);
    get filePath <- index parts (numParts - 1) orpanic "index out of range";
    let numRemoveParts := 1 in
    get before <- index parts (numParts - 2) orpanic "index out of range";
    let '(numRemoveParts, filePath) :=
      if String.eqb before "charts" then (numRemoveParts + 1, "charts/" +:+ filePath)
      else (numRemoveParts, filePath) in
    get kept <- slice_to parts (numParts - numRemoveParts) orpanic "slice bounds out of range";
    let parsedURL := set_Path (strings_Join kept "/") parsedURL in
    let parsedURL :=
      if useHTTP p then set_Scheme "http" parsedURL else set_Scheme "https" parsedURL in
    let client :=
      cm_NewClient [ cm_URL (URL_String parsedURL); cm_Username (username p);
                     cm_Password (password p); cm_AccessToken (accessToken p);
                     cm_ContextPath (contextPath p) ] in
    try contents <- client_DownloadFile client filePath;
    run fmt_Print (string_of_list_byte contents);
    ret None.

(** *** The entry dispatcher *)

(** [newPushCmd]: a zero command, the five flags bound to its fields, and
    the command line's flag occurrences parsed into it. *)
Definition newPushCmd (occs : list (string * string)) : pushCmd :=
  parseFlags pushFlags occs pushCmd_zero.

(** [RunE] on the positional arguments. *)
Definition RunE (env : Env) (p : pushCmd) (args : list string) : M (option error) :=
  let pushMode :=
    if negb (len args =? 2) then
      ret (Some (errorString
        "This command needs 2 arguments: name of chart, name of chart repository"))
    else
      get a0 <- index args 0 orpanic "index out of range";
      get a1 <- index args 1 orpanic "index out of range";
      let p := set_chartName a0 p in
      let p := set_repoName a1 p in
      let p := setFieldsFromEnv env p in
      push p in
  (* If there are 4 args, this is likely being used as a downloader for cm:// protocol *)
  if len args =? 4 then
    get a3 <- index args 3 orpanic "index out of range";
    if strings_HasPrefix a3 "cm://" then
      let p := setFieldsFromEnv env p in
      download p a3
    else pushMode
  else pushMode.

End Flows.

(** ** The Go standard library on plain input *)

(** net/url and encoding/json as far as the examples need them.  The
    structure is the library's.  Left out of [Parse]: user information
    ([user@host]), bracketed IPv6 hosts and percent-escapes inside the host;
    on such input [Parse] answers with the error [unmodelled].  Left out of
    the JSON decoder: ill-formed UTF-8 in a string is copied, where Go puts
    the replacement character. *)
Module Go.

Definition byteval (c : ascii) : Z := Z.of_N (N_of_ascii c).
Definition between (lo hi c : ascii) : bool :=
  (byteval lo <=? byteval c) && (byteval c <=? byteval hi).
Definition isLetter (c : ascii) : bool := between "a" "z" c || between "A" "Z" c.
Definition isDigit (c : ascii) : bool := between "0" "9" c.
Definition dquote : ascii := ascii_of_nat 34.

Fixpoint mem (c : ascii) (set : string) : bool :=
  match set with
  | EmptyString => false
  | String d set' => Ascii.eqb c d || mem c set'
  end.

Definition all (f : ascii -> bool) (s : string) : bool :=
  forallb f (list_ascii_of_string s).
Definition any (f : ascii -> bool) (s : string) : bool :=
  existsb f (list_ascii_of_string s).

Definition unmodelled : error := errorString "unmodelled".

(** [strings.Cut] on a one-byte separator: before, after, found. *)
Fixpoint Cut (s : string) (sep : ascii) : string * string * bool :=
  match s with
  | EmptyString => ("", "", false)
  | String c s' =>
      if Ascii.eqb c sep then ("", s', true)
      else let '(a, b, found) := Cut s' sep in
           if found then (String c a, b, true) else (s, "", false)
  end.

Definition ToLower (s : string) : string :=
  string_of_list_ascii
    ((fun c => if between "A" "Z" c then ascii_of_N (N_of_ascii c + 32) else c)
       <$> list_ascii_of_string s).

Inductive encoding : Type :=
| encodePath | encodePathSegment | encodeHost | encodeZone
| encodeUserPassword | encodeQueryComponent | encodeFragment.

Definition isHostMode (mode : encoding) : bool :=
  match mode with encodeHost | encodeZone => true | _ => false end.

Definition shouldEscape (c : ascii) (mode : encoding) : bool :=
  if isLetter c || isDigit c then false
  else if isHostMode mode && (mem c "!$&'()*+,;=:[]<>" || Ascii.eqb c dquote) then false
  else if mem c "-_.~" then false
  else if mem c "$&+,/:;=?@" then
    match mode with
    | encodePath => Ascii.eqb c "?"
    | encodePathSegment => mem c "/;,?"
    | encodeUserPassword => mem c "@/?:"
    | encodeQueryComponent => true
    | encodeFragment => false
    | encodeHost | encodeZone => true
    end
  else if match mode with encodeFragment => mem c "!()*" | _ => false end then false
  else true.

Definition upperhex (n : N) : ascii :=
  nth (N.to_nat n) (list_ascii_of_string "0123456789ABCDEF") "0"%char.

Fixpoint escape (s : string) (mode : encoding) : string :=
  match s with
  | EmptyString => ""
  | String c s' =>
      if shouldEscape c mode then
        if Ascii.eqb c " " && match mode with encodeQueryComponent => true | _ => false end
        then String "+" (escape s' mode)
        else String "%" (String (upperhex (N_of_ascii c / 16))
                           (String (upperhex (N_of_ascii c mod 16)) (escape s' mode)))
      else String c (escape s' mode)
  end.

Definition unhex (c : ascii) : option N :=
  if isDigit c then Some (N_of_ascii c - 48)%N
  else if between "a" "f" c then Some (N_of_ascii c - 97 + 10)%N
  else if between "A" "F" c then Some (N_of_ascii c - 65 + 10)%N
  else None.

(** [unescape] in the modes of the path, the fragment and the user
    information: [%XX] is the byte [XX], anything else after [%] an error. *)
Fixpoint unescape (s : string) : result string :=
  match s with
  | EmptyString => Ok ""
  | String "%" (String a (String b s')) =>
      match unhex a, unhex b, unescape s' with
      | Some h, Some l, Ok r => Ok (String (ascii_of_N (16 * h + l)) r)
      | Some _, Some _, Err e => Err e
      | _, _, _ => Err (errorString ("invalid URL escape " +:+ String "%" (String a (String b ""))))
      end
  | String "%" rest => Err (errorString ("invalid URL escape %" +:+ rest))
  | String c s' =>
      match unescape s' with
      | Ok r => Ok (String c r)
      | Err e => Err e
      end
  end.

Fixpoint getScheme_from (first : bool) (seen s rawURL : string) : result (string * string) :=
  match s with
  | EmptyString => Ok ("", rawURL)
  | String c s' =>
      if isLetter c then getScheme_from false (seen +:+ String c "") s' rawURL
      else if isDigit c || mem c "+-." then
        if first then Ok ("", rawURL)
        else getScheme_from false (seen +:+ String c "") s' rawURL
      else if Ascii.eqb c ":" then
        if first then Err (errorString "missing protocol scheme") else Ok (seen, s')
      else Ok ("", rawURL)
  end.

Definition getScheme (rawURL : string) : result (string * string) :=
  getScheme_from true "" rawURL rawURL.

Definition validOptionalPort (port : string) : bool :=
  match port with
  | EmptyString => true
  | String c digits => Ascii.eqb c ":" && all isDigit digits
  end.

Definition parseHost (host : string) : result string :=
  if String.prefix "[" host || mem "%" host then Err unmodelled
  else
    let colonPort :=
      match reverse (strings_Split host ":") with
      | port :: _ :: _ => ":" +:+ port
      | _ => ""
      end in
    if negb (validOptionalPort colonPort)
    then Err (errorString ("invalid port " +:+ colonPort +:+ " after host"))
    else if any (fun c => (byteval c <? 128) && shouldEscape c encodeHost) host
    then Err (errorString "invalid character in host name")
    else Ok host.

Definition parseAuthority (authority : string) : result (option Userinfo * string) :=
  if mem "@" authority then Err unmodelled
  else match parseHost authority with
       | Ok host => Ok (None, host)
       | Err e => Err e
       end.

Definition setPath (p : string) (u : URL) : result URL :=
  match unescape p with
  | Err e => Err e
  | Ok path =>
      let raw := if String.eqb p (escape path encodePath) then "" else p in
      Ok (mkURL (Scheme u) (Opaque u) (User u) (Host u) path raw (OmitHost u)
                (ForceQuery u) (RawQuery u) (Fragment u) (RawFragment u))
  end.

Definition setFragment (f : string) (u : URL) : result URL :=
  match unescape f with
  | Err e => Err e
  | Ok frag =>
      let raw := if String.eqb f (escape frag encodeFragment) then "" else f in
      Ok (mkURL (Scheme u) (Opaque u) (User u) (Host u) (Path u) (RawPath u) (OmitHost u)
                (ForceQuery u) (RawQuery u) frag raw)
  end.

Definition isCTL (c : ascii) : bool := (byteval c <? 32) || (byteval c =? 127).

Definition count (c : ascii) (s : string) : Z :=
  len (filter (fun d => d = c) (list_ascii_of_string s)).

Definition dropLast (s : string) : string :=
  string_of_list_ascii (removelast (list_ascii_of_string s)).

(** [parse(rawURL, false)]: the URL without its fragment. *)
Definition parse (rawURL : string) : result URL :=
  let empty := mkURL "" "" None "" "" "" false false "" "" "" in
  if any isCTL rawURL then Err (errorString "net/url: invalid control character in URL")
  else if String.eqb rawURL "*" then Ok (set_Path "*" empty)
  else
    match getScheme rawURL with
    | Err e => Err e
    | Ok (scheme, rest) =>
        let scheme := ToLower scheme in
        let '(rest, rawQuery, forceQuery) :=
          if strings_HasSuffix rest "?" && (count "?" rest =? 1)
          then (dropLast rest, "", true)
          else let '(a, b, _) := Cut rest "?" in (a, b, false) in
        if negb (String.prefix "/" rest) && negb (String.eqb scheme "") then
          (* a rootless path after a scheme is opaque *)
          Ok (mkURL scheme rest None "" "" "" false forceQuery rawQuery "" "")
        else if negb (String.prefix "/" rest) && mem ":" (fst (fst (Cut rest "/"))) then
          Err (errorString "first path segment in URL cannot contain colon")
        else if (negb (String.eqb scheme "") || negb (String.prefix "///" rest))
                && String.prefix "//" rest then
          let '(authority, after, found) := Cut (String.substring 2 (String.length rest) rest) "/" in
          let rest := if found then String "/" after else "" in
          match parseAuthority authority with
          | Err e => Err e
          | Ok (user, host) =>
              setPath rest (mkURL scheme "" user host "" "" false forceQuery rawQuery "" "")
          end
        else
          let omit := negb (String.eqb scheme "") && String.prefix "/" rest in
          setPath rest (mkURL scheme "" None "" "" "" omit forceQuery rawQuery "" "")
    end.

(** [url.Parse]. *)
Definition Parse (rawURL : string) : result URL :=
  let '(u, frag, _) := Cut rawURL "#" in
  match parse u with
  | Err e => Err (url_Error "parse" u e)
  | Ok url =>
      if String.eqb frag "" then Ok url
      else match setFragment frag url with
           | Err e => Err (url_Error "parse" rawURL e)
           | Ok url => Ok url
           end
  end.

Definition validEncoded (s : string) (mode : encoding) : bool :=
  all (fun c => mem c "!$&'()*+,;=:@[]%" || negb (shouldEscape c mode)) s.

Definition EscapedPath (u : URL) : string :=
  if negb (String.eqb (RawPath u) "") && validEncoded (RawPath u) encodePath
     && match unescape (RawPath u) with Ok p => String.eqb p (Path u) | Err _ => false end
  then RawPath u
  else if String.eqb (Path u) "*" then "*"
  else escape (Path u) encodePath.

Definition EscapedFragment (u : URL) : string :=
  if negb (String.eqb (RawFragment u) "") && validEncoded (RawFragment u) encodeFragment
     && match unescape (RawFragment u) with Ok f => String.eqb f (Fragment u) | Err _ => false end
  then RawFragment u
  else escape (Fragment u) encodeFragment.

Definition Userinfo_String (ui : Userinfo) : string :=
  escape (ui_username ui) encodeUserPassword +:+
  (if ui_passwordSet ui then ":" +:+ escape (ui_password ui) encodeUserPassword else "").

(** The method [String] of [URL]. *)
Definition String_ (u : URL) : string :=
  let buf := if negb (String.eqb (Scheme u) "") then Scheme u +:+ ":" else "" in
  let buf :=
    if negb (String.eqb (Opaque u) "") then buf +:+ Opaque u
    else
      let hasUser := match User u with Some _ => true | None => false end in
      let buf :=
        if negb (String.eqb (Scheme u) "") || negb (String.eqb (Host u) "") || hasUser then
          if OmitHost u && String.eqb (Host u) "" && negb hasUser then buf
          else
            buf
            +:+ (if negb (String.eqb (Host u) "") || negb (String.eqb (Path u) "") || hasUser
                 then "//" else "")
            +:+ match User u with Some ui => Userinfo_String ui +:+ "@" | None => "" end
            +:+ (if negb (String.eqb (Host u) "") then escape (Host u) encodeHost else "")
        else buf in
      let path := EscapedPath u in
      let buf :=
        if negb (String.eqb path "") && negb (String.prefix "/" path)
           && negb (String.eqb (Host u) "")
        then buf +:+ "/" else buf in
      let buf :=
        if String.eqb buf "" && mem ":" (fst (fst (Cut path "/")))
        then buf +:+ "./" else buf in
      buf +:+ path in
  let buf :=
    if ForceQuery u || negb (String.eqb (RawQuery u) "")
    then buf +:+ "?" +:+ RawQuery u else buf in
  if negb (String.eqb (Fragment u) "")
  then buf +:+ "#" +:+ EscapedFragment u else buf.

(** *** encoding/json *)

(** A JSON text as the decoder sees it. *)
#[warnings="-register-all"]
Inductive value : Type :=
| JNull
| JBool (b : bool)
| JNumber (literal : string)
| JString (s : string)
| JArray (elems : list value)
| JObject (members : list (string * value)).

Definition isSpace (c : ascii) : bool :=
  Ascii.eqb c " " || (byteval c =? 9) || (byteval c =? 10) || (byteval c =? 13).

Fixpoint skipSpace (s : string) : string :=
  match s with
  | String c s' => if isSpace c then skipSpace s' else s
  | EmptyString => ""
  end.

(** [utf8.EncodeRune]. *)
Definition EncodeRune (r : N) : string :=
  let b (n : N) := ascii_of_N n in
  (if r <? 128 then String (b r) ""
   else if r <? 2048 then String (b (192 + r / 64)) (String (b (128 + r mod 64)) "")
   else if r <? 65536 then
     String (b (224 + r / 4096))
       (String (b (128 + (r / 64) mod 64)) (String (b (128 + r mod 64)) ""))
   else
     String (b (240 + r / 262144))
       (String (b (128 + (r / 4096) mod 64))
          (String (b (128 + (r / 64) mod 64)) (String (b (128 + r mod 64)) ""))))%N.

Definition ReplacementChar : N := 65533.
Definition isHigh (r : N) : bool := ((55296 <=? r) && (r <? 56320))%N.
Definition isLow (r : N) : bool := ((56320 <=? r) && (r <? 57344))%N.

Definition getu4 (a b c d : ascii) : option N :=
  match unhex a, unhex b, unhex c, unhex d with
  | Some x, Some y, Some z, Some t => Some (((x * 16 + y) * 16 + z) * 16 + t)%N
  | _, _, _, _ => None
  end.

(** The text of a string literal after its opening quote: the decoded
    string and what follows the closing quote.  [high] is a high surrogate
    read from a [\u] escape and waiting for its low half; alone it becomes
    the replacement character.  Bytes from 128 on are copied unchanged. *)
Fixpoint scanString (high : option N) (s : string) : option (string * string) :=
  let flush := match high with Some _ => EncodeRune ReplacementChar | None => "" end in
  let emit (text : string) (r : option (string * string)) :=
    match r with
    | Some (out, rest) => Some (flush +:+ text +:+ out, rest)
    | None => None
    end in
  match s with
  | EmptyString => None
  | String "\" (String "u" (String a (String b (String c (String d s'))))) =>
      match getu4 a b c d with
      | None => None
      | Some r =>
          match high with
          | Some h =>
              if isLow r then
                match scanString None s' with
                | Some (out, rest) =>
                    Some (EncodeRune (65536 + (h - 55296) * 1024 + (r - 56320))%N +:+ out, rest)
                | None => None
                end
              else if isHigh r then emit "" (scanString (Some r) s')
              else emit (EncodeRune r) (scanString None s')
          | None =>
              if isHigh r then scanString (Some r) s'
              else if isLow r then emit (EncodeRune ReplacementChar) (scanString None s')
              else emit (EncodeRune r) (scanString None s')
          end
      end
  | String "\" (String e s') =>
      let simple (c : ascii) := emit (String c "") (scanString None s') in
      if Ascii.eqb e dquote then simple dquote
      else if Ascii.eqb e "\" then simple "\"%char
      else if Ascii.eqb e "/" then simple "/"%char
      else if Ascii.eqb e "b" then simple (ascii_of_nat 8)
      else if Ascii.eqb e "f" then simple (ascii_of_nat 12)
      else if Ascii.eqb e "n" then simple (ascii_of_nat 10)
      else if Ascii.eqb e "r" then simple (ascii_of_nat 13)
      else if Ascii.eqb e "t" then simple (ascii_of_nat 9)
      else None
  | String c s' =>
      if Ascii.eqb c dquote then Some (flush, s')
      else if (byteval c <? 32) || Ascii.eqb c "\" then None
      else emit (String c "") (scanString None s')
  end.

Fixpoint spanDigits (s : string) : string * string :=
  match s with
  | String c s' =>
      if isDigit c then let '(ds, rest) := spanDigits s' in (String c ds, rest)
      else ("", s)
  | EmptyString => ("", "")
  end.

(** A number literal: sign, integer part without a leading zero, fraction,
    exponent. *)
Definition scanNumber (s : string) : option (string * string) :=
  let '(sign, s) := match s with String "-" s' => ("-", s') | _ => ("", s) end in
  let '(int, s) := spanDigits s in
  if String.eqb int "" || (String.prefix "0" int && negb (String.eqb int "0")) then None
  else
    let frac :=
      match s with
      | String "." s' =>
          let '(ds, rest) := spanDigits s' in
          if String.eqb ds "" then None else Some ("." +:+ ds, rest)
      | _ => Some ("", s)
      end in
    match frac with
    | None => None
    | Some (f, s) =>
        match s with
        | String e s' =>
            if mem e "eE" then
              let '(sg, s2) :=
                match s' with
                | String g s3 => if mem g "+-" then (String g "", s3) else ("", s')
                | EmptyString => ("", s')
                end in
              let '(ds, rest) := spanDigits s2 in
              if String.eqb ds "" then None
              else Some (sign +:+ int +:+ f +:+ String e "" +:+ sg +:+ ds, rest)
            else Some (sign +:+ int +:+ f, s)
        | EmptyString => Some (sign +:+ int +:+ f, s)
        end
    end.

(** One value at the head of [s], after optional space.  Every call
    consumes a byte before it recurses, so the length of the text is fuel
    enough. *)
Fixpoint scanValue (fuel : nat) (s : string) : option (value * string) :=
  match fuel with
  | O => None
  | S fuel =>
      let s := skipSpace s in
      match s with
      | EmptyString => None
      | String c s' =>
          if Ascii.eqb c "{" then
            match skipSpace s' with
            | String "}" rest => Some (JObject [], rest)
            | _ =>
                match scanMembers fuel s' with
                | Some (ms, rest) => Some (JObject ms, rest)
                | None => None
                end
            end
          else if Ascii.eqb c "[" then
            match skipSpace s' with
            | String "]" rest => Some (JArray [], rest)
            | _ =>
                match scanElements fuel s' with
                | Some (vs, rest) => Some (JArray vs, rest)
                | None => None
                end
            end
          else if Ascii.eqb c dquote then
            match scanString None s' with
            | Some (str, rest) => Some (JString str, rest)
            | None => None
            end
          else if String.prefix "true" s then Some (JBool true, String.substring 4 (String.length s) s)
          else if String.prefix "false" s then Some (JBool false, String.substring 5 (String.length s) s)
          else if String.prefix "null" s then Some (JNull, String.substring 4 (String.length s) s)
          else
            match scanNumber s with
            | Some (n, rest) => Some (JNumber n, rest)
            | None => None
            end
      end
  end
with scanElements (fuel : nat) (s : string) : option (list value * string) :=
  match fuel with
  | O => None
  | S fuel =>
      match scanValue fuel s with
      | None => None
      | Some (v, rest) =>
          match skipSpace rest with
          | String "]" rest' => Some ([v], rest')
          | String "," rest' =>
              match scanElements fuel rest' with
              | Some (vs, rest'') => Some (v :: vs, rest'')
              | None => None
              end
          | _ => None
          end
      end
  end
with scanMembers (fuel : nat) (s : string) : option (list (string * value) * string) :=
  match fuel with
  | O => None
  | S fuel =>
      match skipSpace s with
      | String q s1 =>
          if negb (Ascii.eqb q dquote) then None
          else
            match scanString None s1 with
            | None => None
            | Some (key, s2) =>
                match skipSpace s2 with
                | String ":" s3 =>
                    match scanValue fuel s3 with
                    | None => None
                    | Some (v, rest) =>
                        match skipSpace rest with
                        | String "}" rest' => Some ([(key, v)], rest')
                        | String "," rest' =>
                            match scanMembers fuel rest' with
                            | Some (ms, rest'') => Some ((key, v) :: ms, rest'')
                            | None => None
                            end
                        | _ => None
                        end
                    end
                | _ => None
                end
            end
      | EmptyString => None
      end
  end.

(** [checkValid]: the whole text is one value between optional space. *)
Definition scan (data : string) : option value :=
  match scanValue (2 * String.length data + 2) data with
  | Some (v, rest) => if String.eqb (skipSpace rest) "" then Some v else None
  | None => None
  end.

Definition kind (v : value) : string :=
  match v with
  | JNull => "null" | JBool _ => "bool" | JNumber _ => "number"
  | JString _ => "string" | JArray _ => "array" | JObject _ => "object"
  end.

(** The key of the one field, [error]: the exact name or the name under
    case folding. *)
Definition isErrorKey (key : string) : bool :=
  String.eqb key "error" || String.eqb (ToLower key) "error".

(** Storing a member into [struct { Error string `json:"error"` }]: a string
    sets the field, [null] leaves it, any other value is a type error; the
    first error is kept and decoding goes on. *)
Definition storeMember (st : string * option error) (m : string * value)
  : string * option error :=
  let '(er_Error, saved) := st in
  if isErrorKey (fst m) then
    match snd m with
    | JString s => (s, saved)
    | JNull => (er_Error, saved)
    | v => (er_Error, match saved with
                      | Some e => Some e
                      | None => Some (UnmarshalTypeError (kind v))
                      end)
    end
  else st.

(** [json.Unmarshal(data, &er)] for that struct. *)
Definition Unmarshal (data : list byte) : string * option error :=
  match scan (string_of_list_byte data) with
  | None => ("", Some SyntaxError)
  | Some (JObject members) => foldl storeMember ("", None) members
  | Some JNull => ("", None)
  | Some v => ("", Some (UnmarshalTypeError (kind v)))
  end.

(** A JSON text written with apostrophes for its double quotes. *)
Definition json_text (s : string) : list byte :=
  list_byte_of_string
    (string_of_list_ascii
       ((fun c => if Ascii.eqb c "'" then dquote else c) <$> list_ascii_of_string s)).

End Go.

(** A platform with the standard library's net/url and encoding/json, the
    other collaborators being those of [P]. *)
Definition stdlib (P : Platform) : Platform := {|
  url_Parse := Go.Parse;
  URL_String := Go.String_;
  json_Unmarshal := Go.Unmarshal;
  helm_GetChartByName := @helm_GetChartByName P;
  helm_CreateChartPackage := @helm_CreateChartPackage P;
  cm_UploadChartPackage := @cm_UploadChartPackage P;
  cm_DownloadFile := @cm_DownloadFile P;
  os_TempDir := @os_TempDir P;
  os_MkdirRandom := @os_MkdirRandom P;
  os_RemoveAll_fault := @os_RemoveAll_fault P
|}.

(** ** The specification's vocabulary *)

(** The world [w] after the events [es]. *)
Definition emits (es : list Event) (w : World) : World :=
  mkWorld (repositories w) (disk w) (trace w ++ es).

(** The events a computation adds when it is run from [w]. *)
Definition issued {A} (c : M A) (w : World) : list Event :=
  drop (length (trace w)) (trace (snd (c w))).

(** The bytes written to standard output, in order. *)
Fixpoint stdout (es : list Event) : string :=
  match es with
  | Stdout s :: es' => s +:+ stdout es'
  | _ :: es' => stdout es'
  | [] => ""
  end.

(** The download requests among the events: client and file path. *)
Fixpoint requests (es : list Event) : list (Client * string) :=
  match es with
  | DownloadFile c filePath :: es' => (c, filePath) :: requests es'
  | _ :: es' => requests es'
  | [] => []
  end.

(** DownloadTarget, by the context-path rule: the last segment is the file
    name; after a segment [charts] the file lives under [charts/] and two
    segments leave the base path, otherwise one; no target with fewer than
    two segments. *)
Definition DownloadTarget (segments : list string) : option (string * list string) :=
  match reverse segments with
  | file :: dir :: rest =>
      if String.eqb dir "charts" then Some ("charts/" +:+ file, reverse rest)
      else Some (file, reverse (dir :: rest))
  | _ => None
  end.

(** The error kinds: [InvalidURI] names the URI, [ServerError] carries the
    status code and a message. *)
Definition InvalidURI (fileURL : string) : error :=
  errorString ("invalid file url: " +:+ fileURL).
Definition ServerError (statusCode : Z) (message : string) : error :=
  errorString (strconv_Itoa statusCode +:+ ": " +:+ message).

(** The client [download] builds for the command [p] against the URL [u]. *)
Definition downloadClient `{Platform} (p : pushCmd) (u : URL) : Client :=
  mkClient (URL_String u) (username p) (password p) (accessToken p) (contextPath p).

(** The upload requests among the events: client and package path. *)
Fixpoint uploads (es : list Event) : list (Client * string) :=
  match es with
  | UploadChartPackage c path :: es' => (c, path) :: uploads es'
  | _ :: es' => uploads es'
  | [] => []
  end.

(** ** An example platform *)

(** A chart [mychart] 0.1.0 on disk, a packaging step that writes
    [name-version.tgz] into the directory it is given, a server that
    accepts every upload with status 201 and answers every download with
    the two bytes [PK]. *)
Module Example.

Definition chart : Chart := mkChart "mychart" "0.1.0" [].

Definition collaborators : Platform := {|
  url_Parse := Go.Parse;
  URL_String := Go.String_;
  json_Unmarshal := Go.Unmarshal;
  helm_GetChartByName := fun name =>
    if String.eqb name "mychart" then Ok chart
    else Err (errorString "chart not found");
  helm_CreateChartPackage := fun c dir d =>
    let path := filepath_Join dir (chart_Name c +:+ "-" +:+ chart_Version c +:+ ".tgz") in
    (Ok path, {[path]} ∪ d);
  cm_UploadChartPackage := fun _ _ => Ok (mkResponse 201 (Ok []));
  cm_DownloadFile := fun _ _ => Ok (list_byte_of_string "PK");
  os_TempDir := "/tmp";
  os_MkdirRandom := fun _ _ _ _ => Ok 42%N;
  os_RemoveAll_fault := fun _ _ => None
|}.

Definition platform : Platform := stdlib collaborators.


Definition repo : Repo := mkRepo "chartmuseum" "https://charts.example.com" "stored" "secret".

Definition world : World := mkWorld {[ "chartmuseum" := repo ]} ∅ [].

End Example.

(** ** A platform whose network fails *)

(** The chart and the packaging step of the example platform; every upload
    and every download ends in a transport error. *)
Module Offline.

Definition refused : error := errorString "connection refused".

Definition platform : Platform := {|
  url_Parse := Go.Parse;
  URL_String := Go.String_;
  json_Unmarshal := Go.Unmarshal;
  helm_GetChartByName := @helm_GetChartByName Example.collaborators;
  helm_CreateChartPackage := @helm_CreateChartPackage Example.collaborators;
  cm_UploadChartPackage := fun _ _ => Err refused;
  cm_DownloadFile := fun _ _ => Err refused;
  os_TempDir := "/tmp";
  os_MkdirRandom := @os_MkdirRandom Example.collaborators;
  os_RemoveAll_fault := @os_RemoveAll_fault Example.collaborators
|}.

End Offline.

(** ** A platform whose disk does not let go *)

(** The example platform, except that the operating system refuses every
    removal: [os.RemoveAll] fails with a permission error and all entries
    stay. *)
Module Stuck.

Definition denied : error := errorString "permission denied".

Definition platform : Platform := {|
  url_Parse := Go.Parse;
  URL_String := Go.String_;
  json_Unmarshal := Go.Unmarshal;
  helm_GetChartByName := @helm_GetChartByName Example.collaborators;
  helm_CreateChartPackage := @helm_CreateChartPackage Example.collaborators;
  cm_UploadChartPackage := @cm_UploadChartPackage Example.collaborators;
  cm_DownloadFile := @cm_DownloadFile Example.collaborators;
  os_TempDir := "/tmp";
  os_MkdirRandom := @os_MkdirRandom Example.collaborators;
  os_RemoveAll_fault := fun _ d => Some (denied, d)
|}.

End Stuck.

(** * Properties *)

(** ** ConfigResolver *)

Lemma precedence_intro (flag : string) (var : option string) :
  precedence flag var
    (match var with
     | Some v => if String.eqb flag "" then v else flag
     | None => flag
     end).
Proof.
  destruct (String.eqb_spec flag "") as [-> | Hne], var as [v |];
    solve [ by apply precedence_env with (v := v)
          | by apply precedence_empty
          | by apply precedence_flag ].
Qed.

Lemma setFieldsFromEnv_fields (env : Env) (p : pushCmd) :
  let pick (flag : string) (var : option string) :=
    match var with
    | Some v => if String.eqb flag "" then v else flag
    | None => flag
    end in
  setFieldsFromEnv env p =
  mkPushCmd (chartName p) (chartVersion p) (repoName p)
    (pick (username p) (env !! "HELM_REPO_USERNAME"))
    (pick (password p) (env !! "HELM_REPO_PASSWORD"))
    (pick (accessToken p) (env !! "HELM_REPO_ACCESS_TOKEN"))
    (pick (contextPath p) (env !! "HELM_REPO_CONTEXT_PATH"))
    (match env !! "HELM_REPO_USE_HTTP" with
     | Some v => fst (strconv_ParseBool v)
     | None => useHTTP p
     end).
Proof.
  destruct p as [cn cv rn u pw tok ctx h].
  unfold setFieldsFromEnv, os_LookupEnv; cbn [username password accessToken contextPath useHTTP
    chartName chartVersion repoName].
  destruct (env !! "HELM_REPO_USERNAME") as [v1 |]; cbn [andb];
    [destruct (String.eqb u "") |];
    (destruct (env !! "HELM_REPO_PASSWORD") as [v2 |]; cbn [andb password set_username];
     [destruct (String.eqb pw "") |]);
    (destruct (env !! "HELM_REPO_ACCESS_TOKEN") as [v3 |];
     cbn [andb accessToken set_username set_password];
     [destruct (String.eqb tok "") |]);
    (destruct (env !! "HELM_REPO_CONTEXT_PATH") as [v4 |];
     cbn [andb contextPath set_username set_password set_accessToken];
     [destruct (String.eqb ctx "") |]);
    destruct (env !! "HELM_REPO_USE_HTTP") as [v5 |]; reflexivity.
Qed.

(** C3.  For each of [username], [password], [accessToken] and
    [contextPath], whatever the flag value and the environment: a non-empty
    flag value is kept; an empty one is replaced by the value of
    [HELM_REPO_USERNAME], [HELM_REPO_PASSWORD], [HELM_REPO_ACCESS_TOKEN] or
    [HELM_REPO_CONTEXT_PATH] when that variable is set; otherwise the field
    stays empty. *)
Theorem setFieldsFromEnv_precedence (env : Env) (p : pushCmd) :
  precedence (username p) (env !! "HELM_REPO_USERNAME")
             (username (setFieldsFromEnv env p)) ∧
  precedence (password p) (env !! "HELM_REPO_PASSWORD")
             (password (setFieldsFromEnv env p)) ∧
  precedence (accessToken p) (env !! "HELM_REPO_ACCESS_TOKEN")
             (accessToken (setFieldsFromEnv env p)) ∧
  precedence (contextPath p) (env !! "HELM_REPO_CONTEXT_PATH")
             (contextPath (setFieldsFromEnv env p)).
Proof.
  rewrite setFieldsFromEnv_fields; cbn [username password accessToken contextPath].
  repeat split; apply precedence_intro.
Qed.

Lemma ParseBool_true (v : string) :
  fst (strconv_ParseBool v) = true ↔ v ∈ ["1"; "t"; "T"; "true"; "TRUE"; "True"].
Proof.
  unfold strconv_ParseBool.
  case_bool_decide as Ht; [tauto |].
  case_bool_decide; cbn; split; (discriminate || contradiction).
Qed.

Lemma ParseBool_malformed (v : string) :
  snd (strconv_ParseBool v) ≠ None → fst (strconv_ParseBool v) = false.
Proof.
  unfold strconv_ParseBool.
  repeat case_bool_decide; cbn; congruence.
Qed.

(** C4.  When [HELM_REPO_USE_HTTP] is set, the resolved [useHTTP] is the
    boolean parse of its value, whatever the field held before: true for
    the six spellings of true and for nothing else, and false for a
    malformed value, whose parse error is dropped.  [setFieldsFromEnv] is a
    total function to commands, it has no failure to report. *)
Theorem setFieldsFromEnv_useHTTP (env : Env) (p : pushCmd) (v : string) :
  env !! "HELM_REPO_USE_HTTP" = Some v →
  useHTTP (setFieldsFromEnv env p) = fst (strconv_ParseBool v) ∧
  (useHTTP (setFieldsFromEnv env p) = true ↔ v ∈ ["1"; "t"; "T"; "true"; "TRUE"; "True"]) ∧
  (snd (strconv_ParseBool v) ≠ None → useHTTP (setFieldsFromEnv env p) = false).
Proof.
  intros Hv. rewrite setFieldsFromEnv_fields; cbn [useHTTP]. rewrite Hv.
  split; [reflexivity |]. split; [apply ParseBool_true | apply ParseBool_malformed].
Qed.

(** A command whose flag-side [useHTTP] is true, an environment that sets
    the variable to a malformed value: the resolved value is false. *)
Lemma setFieldsFromEnv_useHTTP_witness :
  ({[ "HELM_REPO_USE_HTTP" := "maybe" ]} : Env) !! "HELM_REPO_USE_HTTP" = Some "maybe" ∧
  useHTTP (setFieldsFromEnv {[ "HELM_REPO_USE_HTTP" := "maybe" ]}
             (set_useHTTP true pushCmd_zero)) = false.
Proof.
  split; [reflexivity |].
  destruct (setFieldsFromEnv_useHTTP {[ "HELM_REPO_USE_HTTP" := "maybe" ]}
              (set_useHTTP true pushCmd_zero) "maybe") as (_ & _ & Hbad);
    [reflexivity |].
  apply Hbad. vm_compute. discriminate.
Defined.

(** ** Strings *)

Lemma append_String (x : ascii) (a b : string) : String x a +:+ b = String x (a +:+ b).
Proof. reflexivity. Qed.

Lemma append_assoc (a b c : string) : (a +:+ b) +:+ c = a +:+ (b +:+ c).
Proof.
  induction a as [| x a IH]; [reflexivity |].
  rewrite !append_String. f_equal. exact IH.
Qed.

Lemma append_nil_r (a : string) : a +:+ "" = a.
Proof. induction a as [| x a IH]; [reflexivity |]. rewrite append_String. by f_equal. Qed.

Lemma length_append (a b : string) :
  String.length (a +:+ b) = (String.length a + String.length b)%nat.
Proof.
  induction a as [| x a IH]; [reflexivity |].
  rewrite append_String. cbn [String.length]. by rewrite IH.
Qed.

(** ** Running a flow *)

Lemma emits_nil (w : World) : emits [] w = w.
Proof. destruct w; unfold emits; cbn. by rewrite app_nil_r. Qed.

Lemma emit_emits (e : Event) (es : list Event) (w : World) :
  emit e (emits es w) = emits (es ++ [e]) w.
Proof. unfold emit, emits; cbn. by rewrite app_assoc. Qed.

Lemma emit_as_emits (e : Event) (w : World) : emit e w = emits [e] w.
Proof. reflexivity. Qed.

Lemma emits_emits (es es' : list Event) (w : World) :
  emits es' (emits es w) = emits (es ++ es') w.
Proof. unfold emits; cbn. by rewrite app_assoc. Qed.

(** Bring a world reached by successive events to the form [emits es w]. *)
Ltac collect_events :=
  rewrite ?emit_as_emits, ?emits_emits; cbn [app].

Lemma issued_emits {A} (c : M A) (w : World) (r : outcome A) (es : list Event) :
  c w = (r, emits es w) → issued c w = es.
Proof.
  intros Hc. unfold issued. rewrite Hc. cbn. by rewrite drop_app_length.
Qed.

(** ** DownloadFlow *)

Lemma segments_short (parts : list string) :
  DownloadTarget parts = None → (len parts <=? 1) = true.
Proof.
  unfold DownloadTarget, len. rewrite <- (length_reverse parts).
  destruct (reverse parts) as [| file [| dir rest]]; cbn [length]; intros Hnone.
  - reflexivity.
  - reflexivity.
  - destruct (String.eqb dir "charts"); discriminate.
Qed.

Lemma segments_long (parts : list string) (file dir : string) (rest : list string) :
  reverse parts = file :: dir :: rest →
  (len parts <=? 1) = false ∧
  index parts (len parts - 1) = Some file ∧
  index parts (len parts - 2) = Some dir ∧
  slice_to parts (len parts - 1) = Some (reverse (dir :: rest)) ∧
  slice_to parts (len parts - (1 + 1)) = Some (reverse rest).
Proof.
  intros Hrev.
  assert (Hparts : parts = reverse rest ++ [dir; file]).
  { rewrite <- (reverse_involutive parts), Hrev.
    rewrite !reverse_cons, <- app_assoc. reflexivity. }
  assert (Hlen : len parts = Z.of_nat (length (reverse rest)) + 2).
  { unfold len. rewrite Hparts, length_app. cbn [length]. lia. }
  set (n := length (reverse rest)) in *.
  repeat split.
  - apply Z.leb_gt. lia.
  - unfold index. rewrite Hlen.
    destruct (Z.ltb_spec (Z.of_nat n + 2 - 1) 0); [lia |].
    replace (Z.to_nat (Z.of_nat n + 2 - 1)) with (n + 1)%nat by lia.
    rewrite Hparts, lookup_app_r by (fold n; lia).
    fold n. replace (n + 1 - n)%nat with 1%nat by lia. reflexivity.
  - unfold index. rewrite Hlen.
    destruct (Z.ltb_spec (Z.of_nat n + 2 - 2) 0); [lia |].
    replace (Z.to_nat (Z.of_nat n + 2 - 2)) with (n + 0)%nat by lia.
    rewrite Hparts, lookup_app_r by (fold n; lia).
    fold n. replace (n + 0 - n)%nat with 0%nat by lia. reflexivity.
  - unfold slice_to. rewrite Hlen.
    destruct (Z.ltb_spec (Z.of_nat n + 2 - 1) 0); [lia |].
    destruct (Z.ltb_spec (Z.of_nat n + 2) (Z.of_nat n + 2 - 1)); [lia |].
    cbn [orb]. f_equal.
    replace (Z.to_nat (Z.of_nat n + 2 - 1)) with (n + 1)%nat by lia.
    rewrite Hparts. change [dir; file] with ([dir] ++ [file]).
    rewrite app_assoc, take_app_length'; [| rewrite length_app; subst n; cbn; lia].
    by rewrite reverse_cons.
  - unfold slice_to. rewrite Hlen.
    destruct (Z.ltb_spec (Z.of_nat n + 2 - (1 + 1)) 0); [lia |].
    destruct (Z.ltb_spec (Z.of_nat n + 2) (Z.of_nat n + 2 - (1 + 1))); [lia |].
    cbn [orb]. f_equal.
    replace (Z.to_nat (Z.of_nat n + 2 - (1 + 1))) with n by lia.
    rewrite Hparts. subst n. by rewrite take_app_length.
Qed.

Section DownloadProperties.
Context `{Platform}.

(** What [download] does, case by case: the parse fails; the path has a
    single segment; the request is sent and fails; the request succeeds. *)
Lemma download_run (p : pushCmd) (fileURL : string) (w : World) :
  download p fileURL w =
  match url_Parse fileURL with
  | Err e => (Ret (Some e), emits [Stdout (fileURL +:+ newline)] w)
  | Ok u =>
      let parts := strings_Split (Path u) "/" in
      match DownloadTarget parts with
      | None =>
          (Ret (Some (InvalidURI fileURL)),
           emits [Stdout (fileURL +:+ newline); Stdout (Path u +:+ newline)] w)
      | Some (filePath, kept) =>
          let client :=
            downloadClient p
              (set_Scheme (if useHTTP p then "http" else "https")
                 (set_Path (strings_Join kept "/") u)) in
          let sent :=
            [Stdout (fileURL +:+ newline); Stdout (Path u +:+ newline);
             Stdout (fmt_Sprint_strings parts +:+ newline);
             DownloadFile client filePath] in
          match cm_DownloadFile client filePath with
          | Err e => (Ret (Some e), emits sent w)
          | Ok contents =>
              (Ret None, emits (sent ++ [Stdout (string_of_list_byte contents)]) w)
          end
      end
  end.
Proof.
  unfold download, bind, ret, fmt_Println, fmt_Print, log. cbn beta iota.
  destruct (url_Parse fileURL) as [u | e]; [| reflexivity].
  cbn beta iota zeta.
  destruct (DownloadTarget (strings_Split (Path u) "/")) as [[filePath kept] |] eqn:Htarget.
  - unfold DownloadTarget in Htarget.
    destruct (reverse (strings_Split (Path u) "/")) as [| file [| dir rest]] eqn:Hrev;
      try discriminate.
    destruct (segments_long _ _ _ _ Hrev) as (Hlen & Hfile & Hdir & Hone & Htwo).
    rewrite Hlen, Hfile, Hdir.
    unfold client_DownloadFile, bind, ret, log, downloadClient, cm_NewClient.
    destruct (String.eqb dir "charts"); injection Htarget as <- <-.
    + rewrite Htwo. destruct (useHTTP p); cbn;
        (destruct (cm_DownloadFile _ _); collect_events; reflexivity).
    + rewrite Hone. destruct (useHTTP p); cbn;
        (destruct (cm_DownloadFile _ _); collect_events; reflexivity).
  - rewrite (segments_short _ Htarget). collect_events. reflexivity.
Qed.

(** The result and the events of [download] do not depend on the world it
    starts from. *)
Lemma download_outcome (p : pushCmd) (fileURL : string) :
  ∃ r es, ∀ w, download p fileURL w = (r, emits es w).
Proof.
  destruct (url_Parse fileURL) as [u | e] eqn:Hparse.
  - destruct (DownloadTarget (strings_Split (Path u) "/")) as [[filePath kept] |] eqn:Htarget.
    + destruct (cm_DownloadFile
                  (downloadClient p
                     (set_Scheme (if useHTTP p then "http" else "https")
                        (set_Path (strings_Join kept "/") u))) filePath) eqn:Hget;
        do 2 eexists; intros w; rewrite download_run, Hparse; cbn zeta;
        rewrite Htarget, Hget; reflexivity.
    + do 2 eexists; intros w; rewrite download_run, Hparse; cbn zeta;
        rewrite Htarget; reflexivity.
  - do 2 eexists; intros w; rewrite download_run, Hparse; reflexivity.
Qed.

(** Every request [download] sends is the one the context-path rule gives
    for the parsed path, with the command's credentials. *)
Lemma download_request_inv (p : pushCmd) (fileURL : string) (w : World)
    (c : Client) (f : string) :
  (c, f) ∈ requests (issued (download p fileURL) w) →
  ∃ u kept,
    url_Parse fileURL = Ok u ∧
    DownloadTarget (strings_Split (Path u) "/") = Some (f, kept) ∧
    c = downloadClient p (set_Scheme (if useHTTP p then "http" else "https")
                            (set_Path (strings_Join kept "/") u)).
Proof.
  pose proof (download_run p fileURL w) as Hrun.
  destruct (url_Parse fileURL) as [u | e].
  - cbn zeta in Hrun.
    destruct (DownloadTarget (strings_Split (Path u) "/")) as [[filePath kept] |] eqn:Htarget.
    + destruct (cm_DownloadFile _ _) in Hrun;
        rewrite (issued_emits _ _ _ _ Hrun); cbn [requests app];
        intros Hin; apply list_elem_of_singleton in Hin; injection Hin as -> ->;
        exists u, kept; auto.
    + rewrite (issued_emits _ _ _ _ Hrun). cbn [requests]. intros Hin. inversion Hin.
  - rewrite (issued_emits _ _ _ _ Hrun). cbn [requests]. intros Hin. inversion Hin.
Qed.

Lemma DownloadTarget_app (init : list string) (dir file : string) :
  DownloadTarget (init ++ [dir; file]) =
  if String.eqb dir "charts" then Some ("charts/" +:+ file, init)
  else Some (file, init ++ [dir]).
Proof.
  unfold DownloadTarget.
  change [dir; file] with ([dir] ++ [file]).
  rewrite app_assoc, !reverse_snoc.
  destruct (String.eqb dir "charts").
  - by rewrite reverse_involutive.
  - by rewrite reverse_cons, reverse_involutive.
Qed.

(** The requests of a run whose URI parses and whose path has a directory
    segment before the file segment. *)
Lemma download_requests (p : pushCmd) (fileURL : string) (u : URL)
    (init : list string) (dir file : string) (w : World) :
  url_Parse fileURL = Ok u →
  strings_Split (Path u) "/" = init ++ [dir; file] →
  requests (issued (download p fileURL) w) =
  [ if String.eqb dir "charts"
    then (downloadClient p (set_Scheme (if useHTTP p then "http" else "https")
                              (set_Path (strings_Join init "/") u)),
          "charts/" +:+ file)
    else (downloadClient p (set_Scheme (if useHTTP p then "http" else "https")
                              (set_Path (strings_Join (init ++ [dir]) "/") u)),
          file) ].
Proof.
  intros Hparse Hsplit.
  pose proof (download_run p fileURL w) as Hrun.
  rewrite Hparse in Hrun. cbn zeta in Hrun.
  rewrite Hsplit, DownloadTarget_app in Hrun.
  destruct (String.eqb dir "charts");
    destruct (cm_DownloadFile _ _) in Hrun;
    rewrite (issued_emits _ _ _ _ Hrun); reflexivity.
Qed.

(** What a successful run has written to standard output: the URI, the
    parsed path and the list of segments, a line each, then the body. *)
Lemma download_stdout (p : pushCmd) (fileURL : string) (w : World) :
  fst (download p fileURL w) = Ret None →
  ∃ u filePath kept contents,
    url_Parse fileURL = Ok u ∧
    DownloadTarget (strings_Split (Path u) "/") = Some (filePath, kept) ∧
    cm_DownloadFile
      (downloadClient p (set_Scheme (if useHTTP p then "http" else "https")
                           (set_Path (strings_Join kept "/") u))) filePath = Ok contents ∧
    stdout (issued (download p fileURL) w) =
      fileURL +:+ newline +:+ Path u +:+ newline
      +:+ fmt_Sprint_strings (strings_Split (Path u) "/") +:+ newline
      +:+ string_of_list_byte contents.
Proof.
  pose proof (download_run p fileURL w) as Hrun.
  destruct (url_Parse fileURL) as [u | e]; [| rewrite Hrun; discriminate].
  cbn zeta in Hrun.
  destruct (DownloadTarget (strings_Split (Path u) "/")) as [[filePath kept] |] eqn:Htarget;
    [| rewrite Hrun; discriminate].
  destruct (cm_DownloadFile _ _) as [contents | e] eqn:Hget in Hrun;
    [| rewrite Hrun; discriminate].
  intros _. exists u, filePath, kept, contents.
  split; [reflexivity |]. split; [exact Htarget |]. split; [exact Hget |].
  rewrite (issued_emits _ _ _ _ Hrun). cbn [stdout app].
  by rewrite append_nil_r, !append_assoc.
Qed.

End DownloadProperties.

(** ** net/url on the flows' URLs *)

Lemma String_begins_with_scheme (u : URL) :
  Scheme u ≠ "" → ∃ rest, Go.String_ u = Scheme u +:+ ":" +:+ rest.
Proof.
  intros Hscheme. unfold Go.String_.
  destruct (String.eqb_spec (Scheme u) "") as [Heq | _]; [contradiction |].
  cbn [negb orb].
  repeat match goal with
         | |- context [if ?b then _ else _] => destruct b
         | |- context [match ?o with Some _ => _ | None => _ end] => destruct o
         end;
    rewrite ?append_assoc; eexists; reflexivity.
Qed.

Lemma getScheme_String_http (u : URL) :
  ∃ rest, Go.getScheme (Go.String_ (set_Scheme "http" u)) = Ok ("http", rest).
Proof.
  destruct (String_begins_with_scheme (set_Scheme "http" u)) as [rest ->]; [discriminate |].
  exists rest. reflexivity.
Qed.

Lemma getScheme_String_https (u : URL) :
  ∃ rest, Go.getScheme (Go.String_ (set_Scheme "https" u)) = Ok ("https", rest).
Proof.
  destruct (String_begins_with_scheme (set_Scheme "https" u)) as [rest ->]; [discriminate |].
  exists rest. reflexivity.
Qed.

Example Parse_charts :
  Go.Parse "cm://host/a/b/charts/foo-1.0.0.tgz" =
  Ok (mkURL "cm" "" None "host" "/a/b/charts/foo-1.0.0.tgz" "" false false "" "" "").
Proof. reflexivity. Qed.

Example Parse_index :
  Go.Parse "cm://host/a/b/foo-1.0.0.tgz" =
  Ok (mkURL "cm" "" None "host" "/a/b/foo-1.0.0.tgz" "" false false "" "" "").
Proof. reflexivity. Qed.

Example Parse_root_file :
  Go.Parse "cm://host/foo.tgz" =
  Ok (mkURL "cm" "" None "host" "/foo.tgz" "" false false "" "" "").
Proof. reflexivity. Qed.

Example Parse_host_only :
  Go.Parse "cm://host" = Ok (mkURL "cm" "" None "host" "" "" false false "" "" "").
Proof. reflexivity. Qed.

(** ** encoding/json on the example bodies *)

Example Unmarshal_conflict :
  Go.Unmarshal (Go.json_text "{'error':'conflict'}") = ("conflict", None).
Proof. reflexivity. Qed.

Example Unmarshal_not_json :
  Go.Unmarshal (list_byte_of_string "not json") = ("", Some SyntaxError).
Proof. reflexivity. Qed.

Example Unmarshal_other_fields :
  Go.Unmarshal (Go.json_text " { 'code' : 409, 'Error' : 'already exists', 'seen' : [1, 2.5e3, null] } ")
  = ("already exists", None).
Proof. reflexivity. Qed.

Example Unmarshal_wrong_type :
  Go.Unmarshal (Go.json_text "{'error': 5}") = ("", Some (UnmarshalTypeError "number")).
Proof. reflexivity. Qed.

Example Unmarshal_empty_message :
  Go.Unmarshal (Go.json_text "{'error': ''}") = ("", None).
Proof. reflexivity. Qed.

(** ** The claims on DownloadFlow *)

(** C1.  When the path of the URI splits on ["/"] into segments that end
    with [dir] and [file], [download] requests the file named by the last
    segment: after the segment [charts] it requests [charts/file] and both
    segments leave the base path, after any other segment it requests
    [file] and only the last segment leaves it.  So
    [cm://host/a/b/charts/foo-1.0.0.tgz] gives the file path
    [charts/foo-1.0.0.tgz] under the base path [/a/b], and
    [cm://host/a/b/foo-1.0.0.tgz] gives [foo-1.0.0.tgz] under [/a/b]. *)
Theorem download_context_path :
  (∀ (H : Platform) (p : pushCmd) (fileURL : string) (u : URL)
     (init : list string) (dir file : string) (w : World),
      url_Parse fileURL = Ok u →
      strings_Split (Path u) "/" = init ++ [dir; file] →
      requests (issued (download p fileURL) w) =
      [ if String.eqb dir "charts"
        then (downloadClient p (set_Scheme (if useHTTP p then "http" else "https")
                                  (set_Path (strings_Join init "/") u)),
              "charts/" +:+ file)
        else (downloadClient p (set_Scheme (if useHTTP p then "http" else "https")
                                  (set_Path (strings_Join (init ++ [dir]) "/") u)),
              file) ]) ∧
  (∀ (P : Platform) (p : pushCmd) (w : World),
      let base :=
        mkURL (if useHTTP p then "http" else "https") "" None "host" "/a/b" ""
              false false "" "" "" in
      requests (issued (@download (stdlib P) p "cm://host/a/b/charts/foo-1.0.0.tgz") w) =
        [ (@downloadClient (stdlib P) p base, "charts/foo-1.0.0.tgz") ] ∧
      requests (issued (@download (stdlib P) p "cm://host/a/b/foo-1.0.0.tgz") w) =
        [ (@downloadClient (stdlib P) p base, "foo-1.0.0.tgz") ] ∧
      Go.String_ base = (if useHTTP p then "http" else "https") +:+ "://host/a/b").
Proof.
  split.
  - intros H. apply download_requests.
  - intros P p w base. split; [| split].
    + rewrite (@download_requests (stdlib P) p _ _ [""; "a"; "b"] "charts" "foo-1.0.0.tgz" w
                 Parse_charts eq_refl).
      subst base. destruct (useHTTP p); reflexivity.
    + rewrite (@download_requests (stdlib P) p _ _ [""; "a"] "b" "foo-1.0.0.tgz" w
                 Parse_index eq_refl).
      subst base. destruct (useHTTP p); reflexivity.
    + subst base. destruct (useHTTP p); reflexivity.
Qed.

(** The rule at [cm://host/a/b/charts/foo-1.0.0.tgz] on the example
    platform: one request, for [charts/foo-1.0.0.tgz] at
    [https://host/a/b]. *)
Lemma download_context_path_witness :
  @url_Parse Example.platform "cm://host/a/b/charts/foo-1.0.0.tgz" =
    Ok (mkURL "cm" "" None "host" "/a/b/charts/foo-1.0.0.tgz" "" false false "" "" "") ∧
  strings_Split "/a/b/charts/foo-1.0.0.tgz" "/" = [""; "a"; "b"] ++ ["charts"; "foo-1.0.0.tgz"] ∧
  requests (issued (@download Example.platform pushCmd_zero
                      "cm://host/a/b/charts/foo-1.0.0.tgz") Example.world) =
  [ (mkClient "https://host/a/b" "" "" "" "", "charts/foo-1.0.0.tgz") ].
Proof.
  split; [reflexivity |]. split; [reflexivity |].
  exact (proj1 download_context_path Example.platform pushCmd_zero
           "cm://host/a/b/charts/foo-1.0.0.tgz"
           (mkURL "cm" "" None "host" "/a/b/charts/foo-1.0.0.tgz" "" false false "" "" "")
           [""; "a"; "b"] "charts" "foo-1.0.0.tgz" Example.world eq_refl eq_refl).
Defined.

(** The segments of a path without a slash: the path itself. *)
Lemma split_from_no_slash (s cur : string) :
  Go.mem "/" s = false → split_from "/" 0 cur s = [cur +:+ s].
Proof.
  revert cur. induction s as [| c s IH]; intros cur Hmem.
  - by rewrite append_nil_r.
  - cbn [Go.mem] in Hmem. apply orb_false_iff in Hmem as [Hc Hs].
    cbn [split_from String.prefix].
    destruct (ascii_dec "/" c) as [<- | _]; [discriminate |].
    rewrite (IH _ Hs), append_assoc. reflexivity.
Qed.

Lemma split_from_nonempty (sep : string) (skip : nat) (cur s : string) :
  (1 ≤ length (split_from sep skip cur s))%nat.
Proof.
  revert skip cur. induction s as [| c s IH]; intros skip cur; cbn [split_from].
  - cbn. lia.
  - destruct skip; [| apply IH].
    destruct (String.prefix sep (String c s)); [cbn [length]; lia | apply IH].
Qed.

Lemma split_from_slash (s cur : string) :
  Go.mem "/" s = true → (2 ≤ length (split_from "/" 0 cur s))%nat.
Proof.
  revert cur. induction s as [| c s IH]; intros cur Hmem; [discriminate |].
  cbn [split_from String.prefix].
  destruct (ascii_dec "/" c) as [<- | Hne].
  - replace (String.prefix "" s) with true by (by destruct s).
    cbn [length]. apply le_n_S, split_from_nonempty.
  - apply IH. cbn [Go.mem] in Hmem.
    destruct (Ascii.eqb_spec "/" c); [contradiction | exact Hmem].
Qed.

(** Fewer than two segments: exactly the paths without a slash. *)
Lemma Split_few_segments (s : string) :
  len (strings_Split s "/") < 2 ↔ Go.mem "/" s = false.
Proof.
  unfold strings_Split, len. cbn iota. split.
  - intros Hlen. destruct (Go.mem "/" s) eqn:Hmem; [| reflexivity].
    pose proof (split_from_slash s "" Hmem). lia.
  - intros Hmem. rewrite (split_from_no_slash s "" Hmem). cbn. lia.
Qed.

Lemma DownloadTarget_few (parts : list string) :
  len parts < 2 → DownloadTarget parts = None.
Proof.
  intros Hlen. unfold DownloadTarget.
  destruct (reverse parts) as [| file [| dir rest]] eqn:Hrev; try reflexivity.
  destruct (segments_long _ _ _ _ Hrev) as (Hle & _).
  apply Z.leb_gt in Hle. lia.
Qed.

(** C5, as the code has it.  A URI whose path splits into fewer than two
    segments, which is a path without any slash as in [cm://host], is
    refused with InvalidURI and nothing is requested.  The path of
    [cm://host/foo.tgz] is [/foo.tgz]; it splits into the empty segment and
    [foo.tgz], and [foo.tgz] is requested from the host with the empty base
    path. *)
Theorem download_too_few_segments :
  (∀ (H : Platform) (p : pushCmd) (fileURL : string) (u : URL) (w : World),
      url_Parse fileURL = Ok u →
      len (strings_Split (Path u) "/") < 2 →
      fst (download p fileURL w) = Ret (Some (InvalidURI fileURL)) ∧
      requests (issued (download p fileURL) w) = []) ∧
  (∀ s : string, len (strings_Split s "/") < 2 ↔ Go.mem "/" s = false) ∧
  (∀ (P : Platform) (p : pushCmd) (w : World),
      fst (@download (stdlib P) p "cm://host" w) = Ret (Some (InvalidURI "cm://host")) ∧
      requests (issued (@download (stdlib P) p "cm://host") w) = []) ∧
  (∀ (P : Platform) (p : pushCmd) (w : World),
      strings_Split "/foo.tgz" "/" = [""; "foo.tgz"] ∧
      requests (issued (@download (stdlib P) p "cm://host/foo.tgz") w) =
        [ (@downloadClient (stdlib P) p
             (mkURL (if useHTTP p then "http" else "https") "" None "host" "" ""
                    false false "" "" ""),
           "foo.tgz") ]).
Proof.
  assert (Hfew : ∀ (H : Platform) (p : pushCmd) (fileURL : string) (u : URL) (w : World),
             url_Parse fileURL = Ok u →
             len (strings_Split (Path u) "/") < 2 →
             fst (download p fileURL w) = Ret (Some (InvalidURI fileURL)) ∧
             requests (issued (download p fileURL) w) = []).
  { intros H p fileURL u w Hparse Hlen.
    pose proof (download_run p fileURL w) as Hrun.
    rewrite Hparse in Hrun. cbn zeta in Hrun.
    rewrite (DownloadTarget_few _ Hlen) in Hrun.
    rewrite (issued_emits _ _ _ _ Hrun), Hrun. split; reflexivity. }
  split; [exact Hfew |]. split; [exact Split_few_segments |]. split.
  - intros P p w. apply (Hfew (stdlib P) p "cm://host" _ w Parse_host_only).
    reflexivity.
  - intros P p w. split; [reflexivity |].
    rewrite (@download_requests (stdlib P) p _ _ [] "" "foo.tgz" w Parse_root_file eq_refl).
    destruct (useHTTP p); reflexivity.
Qed.

(** [cm://host] on the example platform: refused, nothing requested. *)
Lemma download_too_few_segments_witness :
  @url_Parse Example.platform "cm://host" =
    Ok (mkURL "cm" "" None "host" "" "" false false "" "" "") ∧
  len (strings_Split "" "/") < 2 ∧
  fst (@download Example.platform pushCmd_zero "cm://host" Example.world) =
    Ret (Some (InvalidURI "cm://host")) ∧
  requests (issued (@download Example.platform pushCmd_zero "cm://host") Example.world) = [].
Proof.
  split; [reflexivity |]. split; [reflexivity |].
  exact (proj1 download_too_few_segments Example.platform pushCmd_zero "cm://host"
           (mkURL "cm" "" None "host" "" "" false false "" "" "") Example.world
           eq_refl eq_refl).
Defined.

(** C5 as the specification states it fails at [cm://host/foo.tgz]: the run
    is not refused with InvalidURI, it succeeds, and it has requested
    [foo.tgz] from [https://host]. *)
Lemma download_single_segment_accepted :
  fst (@download Example.platform pushCmd_zero "cm://host/foo.tgz" Example.world)
    ≠ Ret (Some (InvalidURI "cm://host/foo.tgz")) ∧
  fst (@download Example.platform pushCmd_zero "cm://host/foo.tgz" Example.world) = Ret None ∧
  requests (issued (@download Example.platform pushCmd_zero "cm://host/foo.tgz")
              Example.world) =
  [ (mkClient "https://host" "" "" "" "", "foo.tgz") ].
Proof.
  split; [| split]; [| reflexivity | reflexivity].
  vm_compute. discriminate.
Qed.

(** C6.  The URL every download client is built against is the parsed URI
    with its scheme replaced: [http] when [useHTTP] is set, [https] when it
    is not, whatever scheme the URI came with; with net/url's [String] the
    text of that URL begins with that scheme. *)
Theorem download_scheme :
  (∀ (H : Platform) (p : pushCmd) (fileURL : string) (w : World) (c : Client) (f : string),
      (c, f) ∈ requests (issued (download p fileURL) w) →
      ∃ u basePath,
        url_Parse fileURL = Ok u ∧
        cm_url c = URL_String (set_Scheme (if useHTTP p then "http" else "https")
                                 (set_Path basePath u)) ∧
        Scheme (set_Scheme (if useHTTP p then "http" else "https") (set_Path basePath u)) =
          (if useHTTP p then "http" else "https")) ∧
  (∀ (P : Platform) (p : pushCmd) (fileURL : string) (w : World) (c : Client) (f : string),
      (c, f) ∈ requests (issued (@download (stdlib P) p fileURL) w) →
      ∃ rest, Go.getScheme (cm_url c) = Ok (if useHTTP p then "http" else "https", rest)).
Proof.
  split.
  - intros H p fileURL w c f Hin.
    destruct (download_request_inv p fileURL w c f Hin) as (u & kept & Hparse & _ & ->).
    exists u, (strings_Join kept "/"). split; [exact Hparse |]. split; reflexivity.
  - intros P p fileURL w c f Hin.
    destruct (@download_request_inv (stdlib P) p fileURL w c f Hin)
      as (u & kept & _ & _ & ->).
    cbn [downloadClient cm_url URL_String stdlib].
    destruct (useHTTP p); [apply getScheme_String_http | apply getScheme_String_https].
Qed.

(** With [useHTTP] set, the request for [cm://host/a/b/foo-1.0.0.tgz] on
    the example platform goes to a URL of scheme [http]. *)
Lemma download_scheme_witness :
  (mkClient "http://host/a/b" "" "" "" "", "foo-1.0.0.tgz")
    ∈ requests (issued (@download Example.platform (set_useHTTP true pushCmd_zero)
                          "cm://host/a/b/foo-1.0.0.tgz") Example.world) ∧
  ∃ rest, Go.getScheme "http://host/a/b" = Ok ("http", rest).
Proof.
  assert (Hin : (mkClient "http://host/a/b" "" "" "" "", "foo-1.0.0.tgz")
                  ∈ requests (issued (@download Example.platform (set_useHTTP true pushCmd_zero)
                                        "cm://host/a/b/foo-1.0.0.tgz") Example.world)).
  { vm_compute. constructor. }
  split; [exact Hin |].
  exact (proj2 download_scheme Example.collaborators (set_useHTTP true pushCmd_zero)
           "cm://host/a/b/foo-1.0.0.tgz" Example.world _ _ Hin).
Defined.

(** C8, at a run that shows the defect.  The server answers the request for
    [cm://host/a/b/foo-1.0.0.tgz] with the two bytes [PK] and the run
    succeeds; standard output then holds the URI, the parsed path and the
    printed list of segments, a line each, before the body: it is not the
    body alone. *)
Theorem download_stdout_debug_lines :
  fst (@download Example.platform pushCmd_zero "cm://host/a/b/foo-1.0.0.tgz" Example.world)
    = Ret None ∧
  @cm_DownloadFile Example.platform (mkClient "https://host/a/b" "" "" "" "") "foo-1.0.0.tgz"
    = Ok (list_byte_of_string "PK") ∧
  stdout (issued (@download Example.platform pushCmd_zero "cm://host/a/b/foo-1.0.0.tgz")
            Example.world)
    = "cm://host/a/b/foo-1.0.0.tgz" +:+ newline +:+ "/a/b/foo-1.0.0.tgz" +:+ newline
      +:+ "[ a b foo-1.0.0.tgz]" +:+ newline +:+ "PK" ∧
  stdout (issued (@download Example.platform pushCmd_zero "cm://host/a/b/foo-1.0.0.tgz")
            Example.world)
    ≠ "PK".
Proof.
  split; [reflexivity |]. split; [reflexivity |]. split; [reflexivity |].
  vm_compute. discriminate.
Qed.

(** The same on every platform and for every successful run: the three
    lines come first, so the output is longer than the body. *)
Lemma download_stdout_longer `{Platform} (p : pushCmd) (fileURL : string) (w : World) :
  fst (download p fileURL w) = Ret None →
  ∃ contents : list byte,
    (String.length (string_of_list_byte contents)
       < String.length (stdout (issued (download p fileURL) w)))%nat ∧
    ∃ debug : string,
      stdout (issued (download p fileURL) w) = debug +:+ string_of_list_byte contents.
Proof.
  intros Hok.
  destruct (download_stdout p fileURL w Hok) as (u & filePath & kept & contents & _ & _ & _ & ->).
  exists contents. split.
  - rewrite !length_append. unfold newline. cbn [String.length]. lia.
  - exists (fileURL +:+ newline +:+ Path u +:+ newline
            +:+ fmt_Sprint_strings (strings_Split (Path u) "/") +:+ newline).
    by rewrite !append_assoc.
Qed.

(** C10.  [download] does not read the stored repositories: from two worlds
    that differ in nothing else, it returns the same result after the same
    events, the request among them; and the credentials, the access token
    and the context path of a request are the command's own fields. *)
Theorem download_ignores_repositories `{Platform} (p : pushCmd) (fileURL : string)
    (w : World) (stored stored' : gmap string Repo) :
  fst (download p fileURL (set_repositories stored w)) =
    fst (download p fileURL (set_repositories stored' w)) ∧
  issued (download p fileURL) (set_repositories stored w) =
    issued (download p fileURL) (set_repositories stored' w) ∧
  ∀ (c : Client) (f : string),
    (c, f) ∈ requests (issued (download p fileURL) (set_repositories stored w)) →
    cm_username c = username p ∧ cm_password c = password p ∧
    cm_accessToken c = accessToken p ∧ cm_contextPath c = contextPath p.
Proof.
  destruct (download_outcome p fileURL) as (r & es & Hrun).
  split; [by rewrite !Hrun |]. split.
  - by rewrite !(issued_emits _ _ _ _ (Hrun _)).
  - intros c f Hin.
    destruct (download_request_inv p fileURL _ c f Hin) as (u & kept & _ & _ & ->).
    repeat split.
Qed.

(** [push] does read them: the same command succeeds where the repository
    is stored and fails where it is not. *)
Example push_reads_repositories :
  fst (@push Example.platform
         (set_repoName "chartmuseum" (set_chartName "mychart" pushCmd_zero))
         Example.world) = Ret None ∧
  fst (@push Example.platform
         (set_repoName "chartmuseum" (set_chartName "mychart" pushCmd_zero))
         (set_repositories ∅ Example.world))
    = Ret (Some (RepositoryNotFound "chartmuseum")).
Proof. split; reflexivity. Qed.

(** ** The flags and the HTTP switch *)

(** Every flag writes its own field. *)
Example newPushCmd_all_flags :
  newPushCmd [("version", "1"); ("username", "u"); ("password", "p");
              ("access-token", "t"); ("context-path", "/c")]
  = mkPushCmd "" "1" "" "u" "p" "t" "/c" false.
Proof. reflexivity. Qed.

Lemma pushFlags_keep_useHTTP (f : Flag) (v : string) (p : pushCmd) :
  f ∈ pushFlags → useHTTP (store f v p) = useHTTP p.
Proof.
  unfold pushFlags. intros Hin.
  repeat (apply elem_of_cons in Hin as [-> | Hin]; [reflexivity |]).
  inversion Hin.
Qed.

Lemma assign_keeps_useHTTP (p : pushCmd) (occ : string * string) :
  useHTTP (assign pushFlags p occ) = useHTTP p.
Proof.
  unfold assign.
  destruct (List.find _ pushFlags) as [f |] eqn:Hfind; [| reflexivity].
  apply List.find_some in Hfind as [Hin _].
  apply pushFlags_keep_useHTTP, list_elem_of_In, Hin.
Qed.

Lemma parseFlags_keeps_useHTTP (occs : list (string * string)) (p : pushCmd) :
  useHTTP (parseFlags pushFlags occs p) = useHTTP p.
Proof.
  unfold parseFlags.
  assert (Hfold : ∀ q, useHTTP (foldl (assign pushFlags) q occs) = useHTTP q).
  { induction occs as [| occ occs IH]; intros q; [reflexivity |].
    cbn [foldl]. by rewrite IH, assign_keeps_useHTTP. }
  rewrite Hfold. reflexivity.
Qed.

Lemma RunE_download_mode `{Platform} (env : Env) (p : pushCmd) (a0 a1 a2 uri : string) :
  strings_HasPrefix uri "cm://" = true →
  RunE env p [a0; a1; a2; uri] = download (setFieldsFromEnv env p) uri.
Proof.
  intros Hprefix. unfold RunE.
  change (len [a0; a1; a2; uri] =? 4) with true.
  change (index [a0; a1; a2; uri] 3) with (Some uri).
  cbn iota. by rewrite Hprefix.
Qed.

(** C9.  No flag writes [useHTTP]: after any command line it is false;
    when the environment does not set [HELM_REPO_USE_HTTP] it is still
    false after the environment is merged, and every download request of
    the invocation goes to a URL of scheme [https]; and it is true after
    the merge only if the environment sets the variable to a spelling of
    true. *)
Theorem useHTTP_only_from_environment `{Platform} (occs : list (string * string)) (env : Env) :
  useHTTP (newPushCmd occs) = false ∧
  (env !! "HELM_REPO_USE_HTTP" = None →
   useHTTP (setFieldsFromEnv env (newPushCmd occs)) = false ∧
   ∀ (a0 a1 a2 uri : string) (w : World) (c : Client) (f : string),
     strings_HasPrefix uri "cm://" = true →
     (c, f) ∈ requests (issued (RunE env (newPushCmd occs) [a0; a1; a2; uri]) w) →
     ∃ u basePath,
       url_Parse uri = Ok u ∧
       cm_url c = URL_String (set_Scheme "https" (set_Path basePath u))) ∧
  (useHTTP (setFieldsFromEnv env (newPushCmd occs)) = true →
   ∃ v, env !! "HELM_REPO_USE_HTTP" = Some v ∧ v ∈ ["1"; "t"; "T"; "true"; "TRUE"; "True"]).
Proof.
  assert (Hflags : useHTTP (newPushCmd occs) = false).
  { unfold newPushCmd. by rewrite parseFlags_keeps_useHTTP. }
  split; [exact Hflags |]. split.
  - intros Hunset.
    assert (Hmerged : useHTTP (setFieldsFromEnv env (newPushCmd occs)) = false).
    { rewrite setFieldsFromEnv_fields. cbn [useHTTP]. by rewrite Hunset. }
    split; [exact Hmerged |].
    intros a0 a1 a2 uri w c f Hprefix Hin.
    rewrite (RunE_download_mode env _ a0 a1 a2 uri Hprefix) in Hin.
    destruct (download_request_inv _ uri w c f Hin) as (u & kept & Hparse & _ & ->).
    rewrite Hmerged. exists u, (strings_Join kept "/"). split; [exact Hparse | reflexivity].
  - rewrite setFieldsFromEnv_fields. cbn [useHTTP].
    destruct (env !! "HELM_REPO_USE_HTTP") as [v |].
    + intros Htrue. exists v. split; [reflexivity | by apply ParseBool_true].
    + rewrite Hflags. discriminate.
Qed.

(** An invocation with every flag given and no [HELM_REPO_USE_HTTP]:
    [useHTTP] is false after the merge, and the download goes to
    [https://host/a/b]. *)
Lemma useHTTP_only_from_environment_witness :
  (∅ : Env) !! "HELM_REPO_USE_HTTP" = None ∧
  useHTTP (setFieldsFromEnv ∅
             (newPushCmd [("version", "1"); ("username", "u"); ("password", "p");
                          ("access-token", "t"); ("context-path", "/c")])) = false ∧
  requests (issued (@RunE Example.platform ∅
                      (newPushCmd [("version", "1"); ("username", "u"); ("password", "p");
                                   ("access-token", "t"); ("context-path", "/c")])
                      ["a"; "b"; "c"; "cm://host/a/b/foo-1.0.0.tgz"]) Example.world)
    = [ (mkClient "https://host/a/b" "u" "p" "t" "/c", "foo-1.0.0.tgz") ].
Proof.
  split; [reflexivity |].
  split; [| reflexivity].
  exact (proj1 (proj1 (proj2 (@useHTTP_only_from_environment Example.platform
           [("version", "1"); ("username", "u"); ("password", "p");
            ("access-token", "t"); ("context-path", "/c")] ∅)) eq_refl)).
Defined.

(** ** ResponseInterpreter *)

Lemma handlePushResponse_run `{Platform} (resp : Response) (w : World) :
  handlePushResponse resp w =
  if StatusCode resp =? 201 then (Ret None, emits [Stdout ("Done." +:+ newline)] w)
  else
    match Body resp with
    | Err e => (Ret (Some e), emits [BodyClose] w)
    | Ok b =>
        (Ret (Some (ServerError (StatusCode resp)
                      match json_Unmarshal b with
                      | (er_Error, None) =>
                          if String.eqb er_Error ""
                          then "could not properly parse response JSON: "
                               +:+ string_of_list_byte b
                          else er_Error
                      | (_, Some _) =>
                          "could not properly parse response JSON: " +:+ string_of_list_byte b
                      end)),
         emits [BodyClose] w)
    end.
Proof.
  unfold handlePushResponse.
  destruct (StatusCode resp =? 201); cbn [negb]; [reflexivity |].
  unfold defer, bind, ret, log. cbn beta iota.
  destruct (Body resp) as [b | e]; [| reflexivity].
  destruct (json_Unmarshal b) as [er_Error [err |]]; cbn [snd].
  - rewrite bool_decide_true by discriminate. cbn [orb].
    unfold fmt_Errorf_d_s, ServerError.
    change ": could not properly parse response JSON: "
      with (": " +:+ "could not properly parse response JSON: ").
    by rewrite !append_assoc.
  - rewrite bool_decide_false by (intros Hne; by apply Hne). cbn [orb].
    destruct (String.eqb er_Error "").
    + unfold fmt_Errorf_d_s, ServerError.
      change ": could not properly parse response JSON: "
        with (": " +:+ "could not properly parse response JSON: ").
      by rewrite !append_assoc.
    + reflexivity.
Qed.

(** C2, as the code has it.  The response is a success exactly when its
    status code is 201, whatever the body.  With another status code and a
    body that could be read, the error carries the status code and a
    message: the [error] field when the body decodes without error and the
    field is not empty; otherwise the text [could not properly parse
    response JSON: ] followed by the raw body.  So 409 with
    [{"error":"conflict"}] gives [409: conflict], and 500 with [not json]
    gives [500: could not properly parse response JSON: not json]. *)
Theorem handlePushResponse_classifies :
  (∀ (H : Platform) (resp : Response) (w : World),
      fst (handlePushResponse resp w) = Ret None ↔ StatusCode resp = 201) ∧
  (∀ (H : Platform) (resp : Response) (b : list byte) (w : World),
      StatusCode resp ≠ 201 →
      Body resp = Ok b →
      fst (handlePushResponse resp w) =
      Ret (Some (ServerError (StatusCode resp)
                   match json_Unmarshal b with
                   | (er_Error, None) =>
                       if String.eqb er_Error ""
                       then "could not properly parse response JSON: "
                            +:+ string_of_list_byte b
                       else er_Error
                   | (_, Some _) =>
                       "could not properly parse response JSON: " +:+ string_of_list_byte b
                   end))) ∧
  (∀ (P : Platform) (w : World),
      fst (@handlePushResponse (stdlib P)
             (mkResponse 409 (Ok (Go.json_text "{'error':'conflict'}"))) w)
        = Ret (Some (ServerError 409 "conflict")) ∧
      fst (@handlePushResponse (stdlib P)
             (mkResponse 500 (Ok (list_byte_of_string "not json"))) w)
        = Ret (Some (ServerError 500 "could not properly parse response JSON: not json"))).
Proof.
  split; [| split].
  - intros H resp w. rewrite handlePushResponse_run.
    destruct (Z.eqb_spec (StatusCode resp) 201) as [Heq | Hne].
    + split; [intros _; exact Heq | reflexivity].
    + destruct (Body resp); cbn [fst]; split; (discriminate || contradiction).
  - intros H resp b w Hne Hbody. rewrite handlePushResponse_run, Hbody.
    destruct (Z.eqb_spec (StatusCode resp) 201); [contradiction | reflexivity].
  - intros P w. split; rewrite handlePushResponse_run; reflexivity.
Qed.

(** Status 409 with the body [{"error":"conflict"}] on the example
    platform. *)
Lemma handlePushResponse_classifies_witness :
  StatusCode (mkResponse 409 (Ok (Go.json_text "{'error':'conflict'}"))) ≠ 201 ∧
  Body (mkResponse 409 (Ok (Go.json_text "{'error':'conflict'}")))
    = Ok (Go.json_text "{'error':'conflict'}") ∧
  fst (@handlePushResponse Example.platform
         (mkResponse 409 (Ok (Go.json_text "{'error':'conflict'}"))) Example.world)
    = Ret (Some (errorString "409: conflict")).
Proof.
  assert (Hne : StatusCode (mkResponse 409 (Ok (Go.json_text "{'error':'conflict'}"))) ≠ 201)
    by discriminate.
  split; [exact Hne |]. split; [reflexivity |].
  exact (proj1 (proj2 handlePushResponse_classifies) Example.platform
           (mkResponse 409 (Ok (Go.json_text "{'error':'conflict'}")))
           (Go.json_text "{'error':'conflict'}") Example.world Hne eq_refl).
Defined.

(** C2 as the specification states it fails at status 500 with the body
    [not json]: the message is not the raw body, the text [could not
    properly parse response JSON: ] stands before it. *)
Lemma handlePushResponse_raw_body_prefixed :
  fst (@handlePushResponse Example.platform
         (mkResponse 500 (Ok (list_byte_of_string "not json"))) Example.world)
    = Ret (Some (errorString "500: could not properly parse response JSON: not json")) ∧
  fst (@handlePushResponse Example.platform
         (mkResponse 500 (Ok (list_byte_of_string "not json"))) Example.world)
    ≠ Ret (Some (ServerError 500 "not json")).
Proof.
  split; [reflexivity |]. vm_compute. discriminate.
Qed.

(** ** PushFlow: the temporary directory *)

Lemma mem_append (c : ascii) (a b : string) :
  Go.mem c (a +:+ b) = Go.mem c a || Go.mem c b.
Proof.
  induction a as [| x a IH]; [reflexivity |].
  rewrite append_String. cbn [Go.mem]. by rewrite IH, orb_assoc.
Qed.

Lemma string_of_uint_no_dot (d : Decimal.uint) :
  Go.mem "." (NilEmpty.string_of_uint d) = false.
Proof. induction d; cbn [NilEmpty.string_of_uint Go.mem]; try rewrite IHd; reflexivity. Qed.

Lemma uitoa_no_dot (r : N) : Go.mem "." (NilZero.string_of_uint (N.to_uint r)) = false.
Proof.
  unfold NilZero.string_of_uint.
  destruct (N.to_uint r) eqn:Hd; try reflexivity; rewrite <- Hd; apply string_of_uint_no_dot.
Qed.

Lemma HasSuffix_no_dot (b : string) :
  Go.mem "." b = false → strings_HasSuffix b "/." = false.
Proof.
  induction b as [| c b IH]; intros Hmem; [reflexivity |].
  cbn [Go.mem] in Hmem. apply orb_false_iff in Hmem as [Hc Hb].
  cbn [strings_HasSuffix]. rewrite (IH Hb), orb_false_r.
  apply String.eqb_neq. intros Heq. injection Heq as _ ->. discriminate.
Qed.

Lemma HasSuffix_append_no_dot (a b : string) :
  Go.mem "." b = false → b ≠ "" → strings_HasSuffix (a +:+ b) "/." = false.
Proof.
  intros Hmem Hne. induction a as [| c a IH]; [by apply HasSuffix_no_dot |].
  rewrite append_String. cbn [strings_HasSuffix]. rewrite IH, orb_false_r.
  apply String.eqb_neq. intros Heq. injection Heq as _ Hdot.
  destruct a as [| y a].
  - change ("" +:+ b) with b in Hdot. subst b. discriminate.
  - rewrite append_String in Hdot. injection Hdot as _ Hempty.
    destruct a; [| discriminate]. change ("" +:+ b) with b in Hempty. contradiction.
Qed.

(** The name [ioutil.TempDir] makes from the pattern [helm-push-] is one
    [os.RemoveAll] acts on: not empty, not ending in a dot. *)
Lemma TempDir_name_removable (dir : string) (r : N) :
  let name :=
    filepath_Join dir ("helm-push-" +:+ NilZero.string_of_uint (N.to_uint r) +:+ "") in
  String.eqb name "" = false ∧ endsWithDot name = false.
Proof.
  set (base := "helm-push-" +:+ NilZero.string_of_uint (N.to_uint r) +:+ "").
  assert (Hbase : ∃ tail, base = String "h" tail) by (eexists; reflexivity).
  assert (Hdot : Go.mem "." base = false).
  { unfold base. by rewrite !mem_append, uitoa_no_dot. }
  destruct Hbase as [tail Hbase].
  assert (Hne : base ≠ "") by (rewrite Hbase; discriminate).
  cbn zeta. unfold filepath_Join, endsWithDot.
  destruct (String.eqb_spec dir "") as [-> | Hdir].
  - rewrite (HasSuffix_no_dot _ Hdot), Hbase. split; reflexivity.
  - rewrite <- append_assoc, (HasSuffix_append_no_dot _ _ Hdot Hne), orb_false_r.
    destruct dir as [| c dir]; [contradiction |].
    rewrite !append_String. split; [reflexivity |].
    apply String.eqb_neq. intros Heq. injection Heq as _ Hempty.
    destruct dir; discriminate.
Qed.

Section Removal.
Context `{Platform}.

Lemma RemoveAll_world (path : string) (w : World) :
  String.eqb path "" = false → endsWithDot path = false →
  snd (os_RemoveAll path w) =
  emit (RemoveAll path) (set_disk (remaining path (disk w)) w).
Proof. intros Hne Hdot. unfold os_RemoveAll. by rewrite Hne, Hdot. Qed.

(** A removal adds nothing to the disk and takes nothing from outside the
    path; one that succeeds takes the path and all that is below it. *)
Lemma remaining_subseteq (path : string) (d : gset string) (q : string) :
  q ∈ remaining path d → q ∈ d.
Proof.
  unfold remaining. destruct (os_RemoveAll_fault path d) as [[e stuck] |];
    intros Hin; by apply elem_of_filter in Hin as [_ Hin].
Qed.

Lemma remaining_outside (path : string) (d : gset string) (q : string) :
  within path q = false → q ∈ d → q ∈ remaining path d.
Proof.
  intros Hout Hin. unfold remaining.
  destruct (os_RemoveAll_fault path d) as [[e stuck] |]; apply elem_of_filter; auto.
Qed.

Lemma remaining_removed (path : string) (d : gset string) (q : string) :
  os_RemoveAll_fault path d = None →
  q ∈ remaining path d ↔ within path q = false ∧ q ∈ d.
Proof. intros Hok. unfold remaining. by rewrite Hok, elem_of_filter. Qed.


End Removal.

Lemma defer_run {A B} (d : M B) (body : M A) (w : World) :
  defer d body w = (fst (body w), snd (d (snd (body w)))).
Proof. unfold defer. by destruct (body w). Qed.

Lemma bind_run {A B} (c : M A) (k : A → M B) (w : World) :
  bind c k w =
  match c w with
  | (Ret a, w') => k a w'
  | (Panic msg, w') => (Panic msg, w')
  end.
Proof. reflexivity. Qed.

Lemma ret_run {A} (a : A) (w : World) : ret a w = (Ret a, w).
Proof. reflexivity. Qed.

(** * Further properties of the flows *)

(** ** PushFlow, case by case *)

Section PushRuns.
Context `{Platform}.

(** The result of [handlePushResponse] does not depend on the world. *)
Lemma handlePushResponse_result (resp : Response) (w w' : World) :
  fst (handlePushResponse resp w) = fst (handlePushResponse resp w').
Proof.
  rewrite !handlePushResponse_run.
  destruct (StatusCode resp =? 201); [reflexivity |]. by destruct (Body resp).
Qed.

Lemma handlePushResponse_world (resp : Response) (w : World) :
  snd (handlePushResponse resp w) =
  emit (if StatusCode resp =? 201 then Stdout ("Done." +:+ newline) else BodyClose) w.
Proof.
  rewrite handlePushResponse_run.
  destruct (StatusCode resp =? 201); [reflexivity |]. by destruct (Body resp).
Qed.

(** The part of [push] that runs once the directory exists: packaging, the
    progress line, the upload and the interpretation of the response. *)
Lemma push_packaged_run (chart : Chart) (tmp repoN : string) (client : Client) (w1 : World) :
  (try chartPackagePath <- CreateChartPackage chart tmp;
   run fmt_Printf ("Pushing " +:+ filepath_Base chartPackagePath +:+ " to "
                   +:+ repoN +:+ "..." +:+ newline);
   try resp <- client_UploadChartPackage client chartPackagePath;
   handlePushResponse resp) w1 =
  let packaged := helm_CreateChartPackage chart tmp (disk w1) in
  let w2 := set_disk (snd packaged) w1 in
  match fst packaged with
  | Err e => (Ret (Some e), w2)
  | Ok path =>
      let pushing :=
        Stdout ("Pushing " +:+ filepath_Base path +:+ " to " +:+ repoN +:+ "..." +:+ newline) in
      match cm_UploadChartPackage client path with
      | Err e => (Ret (Some e), emits [pushing; UploadChartPackage client path] w2)
      | Ok resp =>
          (fst (handlePushResponse resp w1),
           emits [pushing; UploadChartPackage client path;
                  if StatusCode resp =? 201 then Stdout ("Done." +:+ newline) else BodyClose]
                 w2)
      end
  end.
Proof.
  rewrite bind_run. unfold CreateChartPackage.
  destruct (helm_CreateChartPackage chart tmp (disk w1)) as [[path | e] d];
    cbn [fst snd]; [| reflexivity].
  rewrite bind_run. unfold fmt_Printf, log. rewrite bind_run.
  unfold client_UploadChartPackage. rewrite bind_run. unfold log. rewrite ret_run.
  destruct (cm_UploadChartPackage client path) as [resp | e].
  - rewrite (surjective_pairing (handlePushResponse resp _)).
    rewrite handlePushResponse_world, (handlePushResponse_result resp _ w1).
    collect_events. reflexivity.
  - collect_events. reflexivity.
Qed.

(** What [push] does: it stops at the repository lookup, at the chart
    lookup or at the creation of the directory and leaves the world as it
    was; or it creates [tmp], packages into it, and whatever follows ends
    with the removal of [tmp], whose error is dropped. *)
Lemma push_run (p : pushCmd) (w : World) :
  push p w =
  match repositories w !! repoName p with
  | None => (Ret (Some (RepositoryNotFound (repoName p))), w)
  | Some repo =>
      match helm_GetChartByName (chartName p) with
      | Err e => (Ret (Some e), w)
      | Ok chart =>
          match os_MkdirRandom os_TempDir "helm-push-" "" (disk w) with
          | Err e => (Ret (Some e), w)
          | Ok rnd =>
              let tmp :=
                filepath_Join os_TempDir
                  ("helm-push-" +:+ NilZero.string_of_uint (N.to_uint rnd) +:+ "") in
              let client :=
                mkClient (repo_URL repo)
                  (if negb (String.eqb (username p) "") then username p else repo_Username repo)
                  (if negb (String.eqb (password p) "") then password p else repo_Password repo)
                  (accessToken p) (contextPath p) in
              let packaged :=
                helm_CreateChartPackage
                  (if negb (String.eqb (chartVersion p) "")
                   then SetVersion (chartVersion p) chart else chart)
                  tmp ({[tmp]} ∪ disk w) in
              let after (es : list Event) :=
                mkWorld (repositories w)
                  (remaining tmp (snd packaged))
                  (trace w ++ MkdirTemp tmp :: es ++ [RemoveAll tmp]) in
              match fst packaged with
              | Err e => (Ret (Some e), after [])
              | Ok path =>
                  let pushing :=
                    Stdout ("Pushing " +:+ filepath_Base path +:+ " to "
                            +:+ repoName p +:+ "..." +:+ newline) in
                  match cm_UploadChartPackage client path with
                  | Err e => (Ret (Some e), after [pushing; UploadChartPackage client path])
                  | Ok resp =>
                      (fst (handlePushResponse resp w),
                       after [pushing; UploadChartPackage client path;
                              if StatusCode resp =? 201
                              then Stdout ("Done." +:+ newline) else BodyClose])
                  end
              end
          end
      end
  end.
Proof.
  unfold push at 1. rewrite bind_run. unfold helm_GetRepoByName.
  destruct (repositories w !! repoName p) as [repo |]; [| reflexivity].
  rewrite bind_run, ret_run.
  destruct (helm_GetChartByName (chartName p)) as [chart | e]; [| reflexivity].
  cbn zeta. rewrite bind_run. unfold ioutil_TempDir.
  change (prefixAndSuffix "helm-push-") with (Ok ("helm-push-", "")).
  change (String.eqb "" "") with true. cbn iota zeta.
  destruct (os_MkdirRandom os_TempDir "helm-push-" "" (disk w)) as [rnd | e]; [| reflexivity].
  destruct (TempDir_name_removable os_TempDir rnd) as [Hne Hdot].
  set (tmp := filepath_Join os_TempDir
                ("helm-push-" +:+ NilZero.string_of_uint (N.to_uint rnd) +:+ "")) in *.
  rewrite defer_run.
  match goal with
  | |- context [os_RemoveAll tmp (snd (?c ?w1))] => set (body := c w1)
  end.
  assert (Hbody : body = body) by reflexivity.
  unfold body at 2 in Hbody. rewrite push_packaged_run in Hbody.
  cbn [disk emit set_disk] in Hbody. cbn zeta in Hbody.
  unfold cm_NewClient, cm_URL, cm_Username, cm_Password, cm_AccessToken, cm_ContextPath
    in Hbody.
  cbn [foldl cm_url cm_username cm_password cm_accessToken cm_contextPath] in Hbody.
  rewrite Hbody. clear Hbody body.
  destruct (helm_CreateChartPackage _ tmp ({[tmp]} ∪ disk w)) as [[path | e] d];
    cbn [fst snd].
  - destruct (cm_UploadChartPackage _ path) as [resp | e]; cbn [fst snd];
      rewrite (RemoveAll_world tmp _ Hne Hdot);
      unfold emit, emits, set_disk; cbn [repositories disk trace];
      rewrite <- ?app_assoc;
      [by rewrite (handlePushResponse_result resp _ w) | reflexivity].
  - rewrite (RemoveAll_world tmp _ Hne Hdot).
    unfold emit, emits, set_disk. cbn [repositories disk trace].
    by rewrite <- ?app_assoc.
Qed.

End PushRuns.

Lemma issued_of_run {A} (c : M A) (w w' : World) (r : outcome A) (es : list Event) :
  c w = (r, w') → trace w' = trace w ++ es → issued c w = es.
Proof.
  intros Hrun Htrace. unfold issued. rewrite Hrun. cbn [snd].
  by rewrite Htrace, drop_app_length.
Qed.

Lemma issued_unchanged {A} (c : M A) (w : World) (r : outcome A) :
  c w = (r, w) → issued c w = [].
Proof. intros Hrun. apply (issued_of_run c w w r [] Hrun). by rewrite app_nil_r. Qed.

(** The six ways through [push], with the equation of each run in [Hrun]. *)
Ltac push_cases p w :=
  let Hrun := fresh "Hrun" in
  pose proof (push_run p w) as Hrun;
  destruct (repositories w !! repoName p) as [repo |] eqn:Hrepo;
  [ destruct (helm_GetChartByName (chartName p)) as [chart | echart] eqn:Hchart;
    [ destruct (os_MkdirRandom os_TempDir "helm-push-" "" (disk w)) as [rnd | etmp] eqn:Htmp;
      [ cbn zeta in Hrun;
        match type of Hrun with
        | context [helm_CreateChartPackage ?a ?b ?c] =>
            destruct (helm_CreateChartPackage a b c) as [[pkg | epack] d] eqn:Hpack;
            cbn [fst snd] in Hrun;
            [ match type of Hrun with
              | context [cm_UploadChartPackage ?cl pkg] =>
                  set (client := cl) in *;
                  destruct (cm_UploadChartPackage client pkg) as [resp | eup] eqn:Hup
              end
            | ]
        end
      | ]
    | ]
  | ].

(** The only directory among the events [es]. *)
Ltac the_directory Hin :=
  cbn [app] in Hin;
  repeat (apply elem_of_cons in Hin as [Hin | Hin];
          [first [discriminate Hin | injection Hin as ->] |]);
  try (inversion Hin; fail).

(** ** PushFlow: the temporary directory is removed last *)




(** The successful push: the same directory, created and removed. *)
Example push_success :
  let p := set_repoName "chartmuseum" (set_chartName "mychart" pushCmd_zero) in
  fst (@push Example.platform p Example.world) = Ret None ∧
  issued (@push Example.platform p) Example.world =
    [ MkdirTemp "/tmp/helm-push-42";
      Stdout ("Pushing mychart-0.1.0.tgz to chartmuseum..." +:+ newline);
      UploadChartPackage (mkClient "https://charts.example.com" "stored" "secret" "" "")
                         "/tmp/helm-push-42/mychart-0.1.0.tgz";
      Stdout ("Done." +:+ newline);
      RemoveAll "/tmp/helm-push-42" ] ∧
  disk (snd (@push Example.platform p Example.world)) = ∅.
Proof. split; [| split]; reflexivity. Qed.

(** ** PushFlow: the upload *)

Lemma push_upload_inv `{Platform} (p : pushCmd) (w : World) (c : Client) (path : string) :
  (c, path) ∈ uploads (issued (push p) w) →
  ∃ repo : Repo,
    repositories w !! repoName p = Some repo ∧
    cm_url c = repo_URL repo ∧
    cm_username c = (if String.eqb (username p) "" then repo_Username repo else username p) ∧
    cm_password c = (if String.eqb (password p) "" then repo_Password repo else password p) ∧
    cm_accessToken c = accessToken p ∧
    cm_contextPath c = contextPath p.
Proof.
  push_cases p w.
  - rewrite (issued_of_run _ _ _ _ _ Hrun eq_refl).
    destruct (StatusCode resp =? 201); cbn [uploads app];
      intros Hin; apply list_elem_of_singleton in Hin; injection Hin as -> ->;
      exists repo; subst client;
      cbn [cm_url cm_username cm_password cm_accessToken cm_contextPath];
      destruct (String.eqb (username p) ""), (String.eqb (password p) "");
      repeat split; reflexivity.
  - rewrite (issued_of_run _ _ _ _ _ Hrun eq_refl). cbn [uploads app].
    intros Hin; apply list_elem_of_singleton in Hin; injection Hin as -> ->.
    exists repo. subst client.
    cbn [cm_url cm_username cm_password cm_accessToken cm_contextPath].
    destruct (String.eqb (username p) ""), (String.eqb (password p) "");
      repeat split; reflexivity.
  - rewrite (issued_of_run _ _ _ _ _ Hrun eq_refl). cbn [uploads app].
    intros Hin. inversion Hin.
  - rewrite (issued_unchanged _ _ _ Hrun). intros Hin. inversion Hin.
  - rewrite (issued_unchanged _ _ _ Hrun). intros Hin. inversion Hin.
  - rewrite (issued_unchanged _ _ _ Hrun). intros Hin. inversion Hin.
Qed.

(** The client of every upload: the stored repository's URL; the flag's
    user name and password where given, the stored ones otherwise; the
    command's access token and context path. *)
Theorem push_upload_client `{Platform} (p : pushCmd) (w : World) (c : Client) (path : string) :
  (c, path) ∈ uploads (issued (push p) w) →
  ∃ repo : Repo,
    repositories w !! repoName p = Some repo ∧
    cm_url c = repo_URL repo ∧
    cm_username c = (if String.eqb (username p) "" then repo_Username repo else username p) ∧
    cm_password c = (if String.eqb (password p) "" then repo_Password repo else password p) ∧
    cm_accessToken c = accessToken p ∧
    cm_contextPath c = contextPath p.
Proof. apply push_upload_inv. Qed.

(** What is uploaded is the package the packaging step wrote, for the chart
    found under [chartName] with the version flag applied, into the
    temporary directory [push] has just created. *)
Theorem push_uploads_package `{Platform} (p : pushCmd) (w : World) (c : Client) (path : string) :
  (c, path) ∈ uploads (issued (push p) w) →
  ∃ (chart : Chart) (tmp : string) (d : gset string),
    helm_GetChartByName (chartName p) = Ok chart ∧
    MkdirTemp tmp ∈ issued (push p) w ∧
    helm_CreateChartPackage
      (if String.eqb (chartVersion p) "" then chart else SetVersion (chartVersion p) chart)
      tmp ({[tmp]} ∪ disk w) = (Ok path, d).
Proof.
  push_cases p w.
  - rewrite (issued_of_run _ _ _ _ _ Hrun eq_refl).
    intros Hin. eexists chart, _, d. split; [reflexivity |]. split; [left |].
    revert Hin. destruct (StatusCode resp =? 201); cbn [uploads app];
      intros Hin; apply list_elem_of_singleton in Hin; injection Hin as -> ->;
      rewrite <- Hpack; by destruct (String.eqb (chartVersion p) "").
  - rewrite (issued_of_run _ _ _ _ _ Hrun eq_refl). cbn [uploads app].
    intros Hin. apply list_elem_of_singleton in Hin. injection Hin as -> ->.
    eexists chart, _, d. split; [reflexivity |]. split; [left |].
    rewrite <- Hpack. by destruct (String.eqb (chartVersion p) "").
  - rewrite (issued_of_run _ _ _ _ _ Hrun eq_refl). cbn [uploads app].
    intros Hin. inversion Hin.
  - rewrite (issued_unchanged _ _ _ Hrun). intros Hin. inversion Hin.
  - rewrite (issued_unchanged _ _ _ Hrun). intros Hin. inversion Hin.
  - rewrite (issued_unchanged _ _ _ Hrun). intros Hin. inversion Hin.
Qed.

(** A push on the example platform with the version flag set to [9.9.9]:
    the package uploaded is [mychart-9.9.9.tgz], written into
    [/tmp/helm-push-42]. *)
Lemma push_uploads_package_witness :
  (mkClient "https://charts.example.com" "stored" "secret" "" "",
   "/tmp/helm-push-42/mychart-9.9.9.tgz")
    ∈ uploads (issued (@push Example.platform
                         (set_chartVersion "9.9.9"
                            (set_repoName "chartmuseum" (set_chartName "mychart" pushCmd_zero))))
                 Example.world) ∧
  ∃ (chart : Chart) (tmp : string) (d : gset string),
    @helm_GetChartByName Example.platform "mychart" = Ok chart ∧
    MkdirTemp tmp ∈ issued (@push Example.platform
                              (set_chartVersion "9.9.9"
                                 (set_repoName "chartmuseum"
                                    (set_chartName "mychart" pushCmd_zero))))
                      Example.world ∧
    @helm_CreateChartPackage Example.platform (SetVersion "9.9.9" chart) tmp
      ({[tmp]} ∪ ∅) = (Ok "/tmp/helm-push-42/mychart-9.9.9.tgz", d).
Proof.
  assert (Hin : (mkClient "https://charts.example.com" "stored" "secret" "" "",
                 "/tmp/helm-push-42/mychart-9.9.9.tgz")
                  ∈ uploads (issued (@push Example.platform
                                       (set_chartVersion "9.9.9"
                                          (set_repoName "chartmuseum"
                                             (set_chartName "mychart" pushCmd_zero))))
                               Example.world)).
  { vm_compute. constructor. }
  split; [exact Hin |].
  exact (@push_uploads_package Example.platform _ _ _ _ Hin).
Defined.

(** The client of that upload, with the user name given by flag: the flag's
    user name, the stored password. *)
Lemma push_upload_client_witness :
  (mkClient "https://charts.example.com" "me" "secret" "" "",
   "/tmp/helm-push-42/mychart-0.1.0.tgz")
    ∈ uploads (issued (@push Example.platform
                         (set_username "me"
                            (set_repoName "chartmuseum" (set_chartName "mychart" pushCmd_zero))))
                 Example.world) ∧
  ∃ repo : Repo,
    repositories Example.world !! "chartmuseum" = Some repo ∧
    "https://charts.example.com" = repo_URL repo ∧
    "me" = "me" ∧
    "secret" = repo_Password repo ∧
    "" = "" ∧ "" = "".
Proof.
  assert (Hin : (mkClient "https://charts.example.com" "me" "secret" "" "",
                 "/tmp/helm-push-42/mychart-0.1.0.tgz")
                  ∈ uploads (issued (@push Example.platform
                                       (set_username "me"
                                          (set_repoName "chartmuseum"
                                             (set_chartName "mychart" pushCmd_zero))))
                               Example.world)).
  { vm_compute. constructor. }
  split; [exact Hin |].
  exact (@push_upload_client Example.platform _ _ _ _ Hin).
Defined.

(** [push] sends at most one upload: a failed upload is not tried again. *)
Theorem push_single_upload `{Platform} (p : pushCmd) (w : World) :
  (length (uploads (issued (push p) w)) ≤ 1)%nat.
Proof.
  push_cases p w;
    first [ rewrite (issued_unchanged _ _ _ Hrun)
          | rewrite (issued_of_run _ _ _ _ _ Hrun eq_refl) ];
    try destruct (StatusCode resp =? 201); cbn; lia.
Qed.

(** When the repository is not stored, the chart cannot be loaded or the
    directory cannot be created, [push] returns the error of that step and
    leaves the world as it was: nothing printed, nothing uploaded, no
    directory. *)
Theorem push_stops_before_packaging `{Platform} (p : pushCmd) (w : World) :
  (repositories w !! repoName p = None →
   push p w = (Ret (Some (RepositoryNotFound (repoName p))), w)) ∧
  (∀ (repo : Repo) (e : error),
     repositories w !! repoName p = Some repo →
     helm_GetChartByName (chartName p) = Err e →
     push p w = (Ret (Some e), w)) ∧
  (∀ (repo : Repo) (chart : Chart) (e : error),
     repositories w !! repoName p = Some repo →
     helm_GetChartByName (chartName p) = Ok chart →
     os_MkdirRandom os_TempDir "helm-push-" "" (disk w) = Err e →
     push p w = (Ret (Some e), w)).
Proof.
  split; [| split].
  - intros Hnone. by rewrite push_run, Hnone.
  - intros repo e Hrepo Hchart. by rewrite push_run, Hrepo, Hchart.
  - intros repo chart e Hrepo Hchart Htmp. by rewrite push_run, Hrepo, Hchart, Htmp.
Qed.

(** A chart that is not there, on the example platform: the error of the
    lookup, and the world as before. *)
Lemma push_stops_before_packaging_witness :
  repositories Example.world !! "chartmuseum" = Some Example.repo ∧
  @helm_GetChartByName Example.platform "nochart" = Err (errorString "chart not found") ∧
  @push Example.platform (set_repoName "chartmuseum" (set_chartName "nochart" pushCmd_zero))
    Example.world
  = (Ret (Some (errorString "chart not found")), Example.world).
Proof.
  split; [reflexivity |]. split; [reflexivity |].
  exact (proj1 (proj2 (@push_stops_before_packaging Example.platform
           (set_repoName "chartmuseum" (set_chartName "nochart" pushCmd_zero)) Example.world))
           Example.repo (errorString "chart not found") eq_refl eq_refl).
Defined.

Lemma handlePushResponse_success `{Platform} (resp : Response) (w : World) :
  fst (handlePushResponse resp w) = Ret None ↔ StatusCode resp = 201.
Proof.
  rewrite handlePushResponse_run.
  destruct (Z.eqb_spec (StatusCode resp) 201) as [Heq | Hne].
  - split; [intros _; exact Heq | reflexivity].
  - destruct (Body resp); cbn [fst]; split; (discriminate || contradiction).
Qed.

Lemma handlePushResponse_returns `{Platform} (resp : Response) (w : World) :
  ∃ r, fst (handlePushResponse resp w) = Ret r.
Proof.
  rewrite handlePushResponse_run.
  destruct (StatusCode resp =? 201); [| destruct (Body resp)]; eauto.
Qed.

(** [push] succeeds exactly when it has uploaded a package and the server
    has answered that upload with status 201. *)
Theorem push_success_iff `{Platform} (p : pushCmd) (w : World) :
  fst (push p w) = Ret None ↔
  ∃ (c : Client) (path : string) (resp : Response),
    (c, path) ∈ uploads (issued (push p) w) ∧
    cm_UploadChartPackage c path = Ok resp ∧
    StatusCode resp = 201.
Proof.
  push_cases p w.
  - rewrite (issued_of_run _ _ _ _ _ Hrun eq_refl), Hrun. cbn [fst].
    rewrite handlePushResponse_success. split.
    + intros H201. exists client, pkg, resp. split; [| split; [exact Hup | exact H201]].
      destruct (StatusCode resp =? 201); cbn [uploads app]; left.
    + intros (c & path & resp' & Hin & Hup' & H201).
      assert (Heq : (c, path) = (client, pkg)).
      { revert Hin. destruct (StatusCode resp =? 201); cbn [uploads app];
          intros Hin; by apply list_elem_of_singleton in Hin. }
      injection Heq as -> ->. rewrite Hup in Hup'. by injection Hup' as <-.
  - rewrite (issued_of_run _ _ _ _ _ Hrun eq_refl), Hrun. cbn [fst uploads app]. split.
    + discriminate.
    + intros (c & path & resp' & Hin & Hup' & _).
      apply list_elem_of_singleton in Hin. injection Hin as -> ->. congruence.
  - rewrite (issued_of_run _ _ _ _ _ Hrun eq_refl), Hrun. cbn [fst uploads app]. split.
    + discriminate.
    + intros (c & path & resp' & Hin & _). inversion Hin.
  - rewrite (issued_unchanged _ _ _ Hrun), Hrun. cbn [fst uploads]. split.
    + discriminate.
    + intros (c & path & resp' & Hin & _). inversion Hin.
  - rewrite (issued_unchanged _ _ _ Hrun), Hrun. cbn [fst uploads]. split.
    + discriminate.
    + intros (c & path & resp' & Hin & _). inversion Hin.
  - rewrite (issued_unchanged _ _ _ Hrun), Hrun. cbn [fst uploads]. split.
    + discriminate.
    + intros (c & path & resp' & Hin & _). inversion Hin.
Qed.

(** What [push] writes to standard output: the line that names the package
    and the repository exactly when it sends an upload, for the package of
    that upload; after it the line [Done.] exactly when the push has
    succeeded; and nothing else. *)
Theorem push_stdout `{Platform} (p : pushCmd) (w : World) :
  stdout (issued (push p) w) =
    match uploads (issued (push p) w) with
    | (_, path) :: _ =>
        "Pushing " +:+ filepath_Base path +:+ " to " +:+ repoName p +:+ "..." +:+ newline
    | [] => ""
    end
    +:+ match fst (push p w) with
        | Ret None => "Done." +:+ newline
        | _ => ""
        end.
Proof.
  push_cases p w;
    first [ rewrite (issued_unchanged _ _ _ Hrun)
          | rewrite (issued_of_run _ _ _ _ _ Hrun eq_refl) ];
    rewrite Hrun; cbn [fst]; try reflexivity.
  rewrite handlePushResponse_run.
  destruct (StatusCode resp =? 201); [| destruct (Body resp)];
    cbn [stdout uploads app fst]; by rewrite ?append_nil_r.
Qed.

Lemma push_returns `{Platform} (p : pushCmd) (w : World) : ∃ r, fst (push p w) = Ret r.
Proof.
  push_cases p w; rewrite Hrun; cbn [fst]; eauto using handlePushResponse_returns.
Qed.

(** ** ResponseInterpreter: reading and closing the body *)

(** With a status other than 201 and a body that cannot be read,
    [handlePushResponse] returns the read error itself, not an error made
    from the status code, and closes the body. *)
Theorem handlePushResponse_read_error `{Platform} (resp : Response) (e : error) (w : World) :
  StatusCode resp ≠ 201 →
  Body resp = Err e →
  handlePushResponse resp w = (Ret (Some e), emit BodyClose w).
Proof.
  intros Hne Hbody. rewrite handlePushResponse_run, Hbody.
  destruct (Z.eqb_spec (StatusCode resp) 201); [contradiction | reflexivity].
Qed.

Lemma handlePushResponse_read_error_witness :
  StatusCode (mkResponse 502 (Err (errorString "unexpected EOF"))) ≠ 201 ∧
  Body (mkResponse 502 (Err (errorString "unexpected EOF"))) = Err (errorString "unexpected EOF") ∧
  @handlePushResponse Example.platform (mkResponse 502 (Err (errorString "unexpected EOF")))
    Example.world
  = (Ret (Some (errorString "unexpected EOF")), emit BodyClose Example.world).
Proof.
  assert (Hne : StatusCode (mkResponse 502 (Err (errorString "unexpected EOF"))) ≠ 201)
    by discriminate.
  split; [exact Hne |]. split; [reflexivity |].
  exact (@handlePushResponse_read_error Example.platform _ _ Example.world Hne eq_refl).
Defined.

(** [handlePushResponse] closes the body exactly when the status is not
    201, writes [Done.] to standard output exactly when it is, and leaves
    the disk and the stored repositories alone. *)
Theorem handlePushResponse_effects `{Platform} (resp : Response) (w : World) :
  (BodyClose ∈ issued (handlePushResponse resp) w ↔ StatusCode resp ≠ 201) ∧
  stdout (issued (handlePushResponse resp) w) =
    (if StatusCode resp =? 201 then "Done." +:+ newline else "") ∧
  disk (snd (handlePushResponse resp w)) = disk w ∧
  repositories (snd (handlePushResponse resp w)) = repositories w.
Proof.
  assert (Hissued : issued (handlePushResponse resp) w =
                    [if StatusCode resp =? 201 then Stdout ("Done." +:+ newline) else BodyClose]).
  { apply (issued_of_run _ w (snd (handlePushResponse resp w)) (fst (handlePushResponse resp w))).
    - by destruct (handlePushResponse resp w).
    - by rewrite handlePushResponse_world. }
  rewrite Hissued, handlePushResponse_world.
  destruct (Z.eqb_spec (StatusCode resp) 201) as [Heq | Hne]; cbn [stdout disk repositories emit].
  - split.
    { split; [| intros Hne; contradiction].
      intros Hin. apply list_elem_of_singleton in Hin. discriminate. }
    repeat split.
  - split.
    { split; [intros _; exact Hne | intros _; left]. }
    repeat split.
Qed.

(** ** ConfigResolver: merging twice, and what the merge leaves alone *)

Lemma pick_pick (flag : string) (var : option string) :
  let pick (f : string) :=
    match var with
    | Some v => if String.eqb f "" then v else f
    | None => f
    end in
  pick (pick flag) = pick flag.
Proof.
  cbn zeta. destruct var as [v |]; [| reflexivity].
  destruct (String.eqb_spec flag "") as [-> | Hne].
  - by destruct (String.eqb v "").
  - by destruct (String.eqb_spec flag "").
Qed.

(** Merging the environment a second time changes nothing. *)
Theorem setFieldsFromEnv_idempotent (env : Env) (p : pushCmd) :
  setFieldsFromEnv env (setFieldsFromEnv env p) = setFieldsFromEnv env p.
Proof.
  rewrite (setFieldsFromEnv_fields env (setFieldsFromEnv env p)).
  rewrite (setFieldsFromEnv_fields env p).
  cbn [chartName chartVersion repoName username password accessToken contextPath useHTTP].
  f_equal; try apply pick_pick.
  by destruct (env !! "HELM_REPO_USE_HTTP").
Qed.

(** The merge never touches the chart name, the version override and the
    repository name, and in an environment that sets none of the five
    variables it changes no field at all. *)
Theorem setFieldsFromEnv_frame (env : Env) (p : pushCmd) :
  chartName (setFieldsFromEnv env p) = chartName p ∧
  chartVersion (setFieldsFromEnv env p) = chartVersion p ∧
  repoName (setFieldsFromEnv env p) = repoName p ∧
  (env !! "HELM_REPO_USERNAME" = None → env !! "HELM_REPO_PASSWORD" = None →
   env !! "HELM_REPO_ACCESS_TOKEN" = None → env !! "HELM_REPO_CONTEXT_PATH" = None →
   env !! "HELM_REPO_USE_HTTP" = None →
   setFieldsFromEnv env p = p).
Proof.
  rewrite setFieldsFromEnv_fields. cbn [chartName chartVersion repoName].
  repeat split. intros -> -> -> -> ->. by destruct p.
Qed.

(** An environment with [HOME] only. *)
Lemma setFieldsFromEnv_frame_witness :
  ({[ "HOME" := "/root" ]} : Env) !! "HELM_REPO_USERNAME" = None ∧
  ({[ "HOME" := "/root" ]} : Env) !! "HELM_REPO_PASSWORD" = None ∧
  ({[ "HOME" := "/root" ]} : Env) !! "HELM_REPO_ACCESS_TOKEN" = None ∧
  ({[ "HOME" := "/root" ]} : Env) !! "HELM_REPO_CONTEXT_PATH" = None ∧
  ({[ "HOME" := "/root" ]} : Env) !! "HELM_REPO_USE_HTTP" = None ∧
  setFieldsFromEnv {[ "HOME" := "/root" ]} (set_username "me" (set_useHTTP true pushCmd_zero))
  = set_username "me" (set_useHTTP true pushCmd_zero).
Proof.
  repeat (split; [reflexivity |]).
  exact (proj2 (proj2 (proj2 (setFieldsFromEnv_frame {[ "HOME" := "/root" ]}
           (set_username "me" (set_useHTTP true pushCmd_zero)))))
           eq_refl eq_refl eq_refl eq_refl eq_refl).
Defined.

(** ** The entry dispatcher *)

Lemma index_in_range {A} (xs : list A) (i : Z) :
  0 ≤ i < len xs → ∃ x, index xs i = Some x.
Proof.
  intros [Hlo Hhi]. unfold index, len in *.
  destruct (Z.ltb_spec i 0); [lia |].
  apply lookup_lt_is_Some. lia.
Qed.

Lemma download_returns `{Platform} (p : pushCmd) (fileURL : string) (w : World) :
  ∃ r, fst (download p fileURL w) = Ret r.
Proof.
  rewrite download_run.
  destruct (url_Parse fileURL) as [u | e]; [| eauto].
  cbn zeta. destruct (DownloadTarget _) as [[filePath kept] |]; [| eauto].
  destruct (cm_DownloadFile _ _); eauto.
Qed.

Lemma RunE_push_mode `{Platform} (env : Env) (p : pushCmd) (chartArg repoArg : string) :
  RunE env p [chartArg; repoArg] =
  push (setFieldsFromEnv env (set_repoName repoArg (set_chartName chartArg p))).
Proof. reflexivity. Qed.

Lemma RunE_returns `{Platform} (env : Env) (p : pushCmd) (args : list string) (w : World) :
  ∃ r, fst (RunE env p args w) = Ret r.
Proof.
  assert (Hpush : ∃ r,
             fst ((if negb (len args =? 2) then
                     ret (Some (errorString
                       "This command needs 2 arguments: name of chart, name of chart repository"))
                   else
                     get a0 <- index args 0 orpanic "index out of range";
                     get a1 <- index args 1 orpanic "index out of range";
                     push (setFieldsFromEnv env (set_repoName a1 (set_chartName a0 p)))) w)
             = Ret r).
  { destruct (Z.eqb_spec (len args) 2) as [H2 | _]; cbn [negb]; [| by eexists].
    destruct (index_in_range args 0) as [a0 ->]; [lia |].
    destruct (index_in_range args 1) as [a1 ->]; [lia |].
    apply push_returns. }
  unfold RunE. cbn zeta.
  destruct (Z.eqb_spec (len args) 4) as [H4 | _]; [| exact Hpush].
  destruct (index_in_range args 3) as [a3 ->]; [lia |].
  destruct (strings_HasPrefix a3 "cm://"); [apply download_returns | exact Hpush].
Qed.

(** No run of the command panics: every index [RunE], [push] and
    [download] take is in range, so [RunE] always returns, an error or
    none. *)
Theorem RunE_never_panics `{Platform} (env : Env) (p : pushCmd) (args : list string) (w : World) :
  ∃ r : option error, fst (RunE env p args w) = Ret r.
Proof. apply RunE_returns. Qed.

(** With a number of arguments other than two, and not four arguments that
    end in a [cm://] URI, [RunE] returns the error that asks for two
    arguments and does nothing else. *)
Theorem RunE_wrong_arguments `{Platform} (env : Env) (p : pushCmd) (args : list string)
    (w : World) :
  len args ≠ 2 →
  (∀ a0 a1 a2 uri, args = [a0; a1; a2; uri] → strings_HasPrefix uri "cm://" = false) →
  RunE env p args w =
  (Ret (Some (errorString
     "This command needs 2 arguments: name of chart, name of chart repository")), w).
Proof.
  intros H2 Huri. unfold RunE. cbn zeta.
  destruct (Z.eqb_spec (len args) 2) as [| _]; [contradiction |]. cbn [negb].
  destruct (Z.eqb_spec (len args) 4) as [H4 | _]; [| reflexivity].
  destruct args as [| a0 [| a1 [| a2 [| uri [| x args]]]]]; try discriminate H4.
  - change (index [a0; a1; a2; uri] 3) with (Some uri). cbn iota.
    by rewrite (Huri a0 a1 a2 uri eq_refl).
  - unfold len in H4. cbn [length] in H4. lia.
Qed.

(** Four arguments that end in an [https] URL: refused, nothing done. *)
Lemma RunE_wrong_arguments_witness :
  len ["a"; "b"; "c"; "https://host/foo.tgz"] ≠ 2 ∧
  @RunE Example.platform ∅ pushCmd_zero ["a"; "b"; "c"; "https://host/foo.tgz"] Example.world
  = (Ret (Some (errorString
       "This command needs 2 arguments: name of chart, name of chart repository")),
     Example.world).
Proof.
  assert (Hne : len ["a"; "b"; "c"; "https://host/foo.tgz"] ≠ 2) by discriminate.
  split; [exact Hne |].
  apply (@RunE_wrong_arguments Example.platform ∅ pushCmd_zero _ Example.world Hne).
  intros a0 a1 a2 uri Heq. injection Heq as <- <- <- <-. reflexivity.
Defined.

(** In push mode the second argument names the repository, and the
    credentials of the upload follow three sources in order: the flag, the
    environment variable, the stored repository. *)
Theorem RunE_push_credentials `{Platform} (env : Env) (p : pushCmd)
    (chartArg repoArg : string) (w : World) (c : Client) (path : string) :
  (c, path) ∈ uploads (issued (RunE env p [chartArg; repoArg]) w) →
  ∃ (repo : Repo) (user pass : string),
    repositories w !! repoArg = Some repo ∧
    precedence (username p) (env !! "HELM_REPO_USERNAME") user ∧
    precedence (password p) (env !! "HELM_REPO_PASSWORD") pass ∧
    cm_url c = repo_URL repo ∧
    cm_username c = (if String.eqb user "" then repo_Username repo else user) ∧
    cm_password c = (if String.eqb pass "" then repo_Password repo else pass).
Proof.
  rewrite RunE_push_mode. intros Hin.
  destruct (push_upload_inv _ w c path Hin) as (repo & Hrepo & Hurl & Huser & Hpass & _).
  rewrite setFieldsFromEnv_fields in Hrepo, Huser, Hpass.
  cbn [repoName username password set_repoName set_chartName] in Hrepo, Huser, Hpass.
  eexists repo, _, _. split; [exact Hrepo |].
  split; [apply precedence_intro |]. split; [apply precedence_intro |].
  split; [exact Hurl |]. split; [exact Huser | exact Hpass].
Qed.

(** A push with no flag, [HELM_REPO_USERNAME] set and no
    [HELM_REPO_PASSWORD]: the environment's user name, the stored
    password. *)
Lemma RunE_push_credentials_witness :
  (mkClient "https://charts.example.com" "from-env" "secret" "" "",
   "/tmp/helm-push-42/mychart-0.1.0.tgz")
    ∈ uploads (issued (@RunE Example.platform {[ "HELM_REPO_USERNAME" := "from-env" ]}
                         pushCmd_zero ["mychart"; "chartmuseum"]) Example.world) ∧
  ∃ (repo : Repo) (user pass : string),
    repositories Example.world !! "chartmuseum" = Some repo ∧
    precedence "" (({[ "HELM_REPO_USERNAME" := "from-env" ]} : Env) !! "HELM_REPO_USERNAME") user ∧
    precedence "" (({[ "HELM_REPO_USERNAME" := "from-env" ]} : Env) !! "HELM_REPO_PASSWORD") pass ∧
    "https://charts.example.com" = repo_URL repo ∧
    "from-env" = (if String.eqb user "" then repo_Username repo else user) ∧
    "secret" = (if String.eqb pass "" then repo_Password repo else pass).
Proof.
  assert (Hin : (mkClient "https://charts.example.com" "from-env" "secret" "" "",
                 "/tmp/helm-push-42/mychart-0.1.0.tgz")
                  ∈ uploads (issued (@RunE Example.platform
                                       {[ "HELM_REPO_USERNAME" := "from-env" ]}
                                       pushCmd_zero ["mychart"; "chartmuseum"]) Example.world)).
  { vm_compute. constructor. }
  split; [exact Hin |].
  exact (@RunE_push_credentials Example.platform _ _ _ _ _ _ _ Hin).
Defined.

(** In download mode the credentials, the access token and the context path
    of the request follow the flag, then the environment variable. *)
Theorem RunE_download_credentials `{Platform} (env : Env) (p : pushCmd)
    (a0 a1 a2 uri : string) (w : World) (c : Client) (f : string) :
  strings_HasPrefix uri "cm://" = true →
  (c, f) ∈ requests (issued (RunE env p [a0; a1; a2; uri]) w) →
  precedence (username p) (env !! "HELM_REPO_USERNAME") (cm_username c) ∧
  precedence (password p) (env !! "HELM_REPO_PASSWORD") (cm_password c) ∧
  precedence (accessToken p) (env !! "HELM_REPO_ACCESS_TOKEN") (cm_accessToken c) ∧
  precedence (contextPath p) (env !! "HELM_REPO_CONTEXT_PATH") (cm_contextPath c).
Proof.
  intros Hprefix. rewrite (RunE_download_mode env p a0 a1 a2 uri Hprefix). intros Hin.
  destruct (download_request_inv _ uri w c f Hin) as (u & kept & _ & _ & ->).
  cbn [downloadClient cm_username cm_password cm_accessToken cm_contextPath].
  rewrite setFieldsFromEnv_fields. cbn [username password accessToken contextPath].
  repeat split; apply precedence_intro.
Qed.

Lemma RunE_download_credentials_witness :
  strings_HasPrefix "cm://host/a/b/foo-1.0.0.tgz" "cm://" = true ∧
  (mkClient "https://host/a/b" "flag" "env-secret" "" "", "foo-1.0.0.tgz")
    ∈ requests (issued (@RunE Example.platform
                          {[ "HELM_REPO_USERNAME" := "env-user";
                             "HELM_REPO_PASSWORD" := "env-secret" ]}
                          (set_username "flag" pushCmd_zero)
                          ["a"; "b"; "c"; "cm://host/a/b/foo-1.0.0.tgz"]) Example.world) ∧
  precedence "flag"
    (({[ "HELM_REPO_USERNAME" := "env-user"; "HELM_REPO_PASSWORD" := "env-secret" ]} : Env)
       !! "HELM_REPO_USERNAME") "flag".
Proof.
  assert (Hin : (mkClient "https://host/a/b" "flag" "env-secret" "" "", "foo-1.0.0.tgz")
                  ∈ requests (issued (@RunE Example.platform
                                        {[ "HELM_REPO_USERNAME" := "env-user";
                                           "HELM_REPO_PASSWORD" := "env-secret" ]}
                                        (set_username "flag" pushCmd_zero)
                                        ["a"; "b"; "c"; "cm://host/a/b/foo-1.0.0.tgz"])
                                Example.world)).
  { vm_compute. constructor. }
  split; [reflexivity |]. split; [exact Hin |].
  exact (proj1 (@RunE_download_credentials Example.platform _ _ "a" "b" "c"
                  "cm://host/a/b/foo-1.0.0.tgz" _ _ _ eq_refl Hin)).
Defined.

(** ** DownloadFlow: failures, the single request, the path *)

(** [download] never panics: it always returns, an error or none.  And it
    touches neither the disk nor the stored repositories: all it does is
    add events. *)
Theorem download_frame `{Platform} (p : pushCmd) (fileURL : string) (w : World) :
  (∃ r : option error, fst (download p fileURL w) = Ret r) ∧
  disk (snd (download p fileURL w)) = disk w ∧
  repositories (snd (download p fileURL w)) = repositories w ∧
  trace (snd (download p fileURL w)) = trace w ++ issued (download p fileURL) w.
Proof.
  destruct (download_outcome p fileURL) as (r & es & Hrun).
  split.
  - apply download_returns.
  - rewrite (issued_emits _ _ _ _ (Hrun w)), Hrun. repeat split.
Qed.

(** A URI that does not parse: the parse error is returned, only the URI
    has been printed, nothing is requested. *)
Theorem download_parse_error `{Platform} (p : pushCmd) (fileURL : string) (e : error)
    (w : World) :
  url_Parse fileURL = Err e →
  fst (download p fileURL w) = Ret (Some e) ∧
  requests (issued (download p fileURL) w) = [] ∧
  stdout (issued (download p fileURL) w) = fileURL +:+ newline.
Proof.
  intros Hparse. pose proof (download_run p fileURL w) as Hrun. rewrite Hparse in Hrun.
  rewrite (issued_emits _ _ _ _ Hrun), Hrun. repeat split.
  cbn [stdout]. by rewrite append_nil_r.
Qed.

(** A stray percent sign, with net/url on the example platform. *)
Lemma download_parse_error_witness :
  @url_Parse Example.platform "cm://host/a%zz/foo.tgz"
    = Err (url_Error "parse" "cm://host/a%zz/foo.tgz" (errorString "invalid URL escape %zz")) ∧
  fst (@download Example.platform pushCmd_zero "cm://host/a%zz/foo.tgz" Example.world)
    = Ret (Some (url_Error "parse" "cm://host/a%zz/foo.tgz"
                   (errorString "invalid URL escape %zz"))) ∧
  requests (issued (@download Example.platform pushCmd_zero "cm://host/a%zz/foo.tgz")
              Example.world) = [].
Proof.
  split; [reflexivity |].
  destruct (@download_parse_error Example.platform pushCmd_zero "cm://host/a%zz/foo.tgz"
              _ Example.world eq_refl) as (Hr & Hreq & _).
  split; [exact Hr | exact Hreq].
Defined.

(** A request that fails in transport: the transport's error is returned
    and no body is written; standard output holds the three lines written
    before the request. *)
Theorem download_transport_error `{Platform} (p : pushCmd) (fileURL : string) (w : World)
    (c : Client) (f : string) (e : error) :
  (c, f) ∈ requests (issued (download p fileURL) w) →
  cm_DownloadFile c f = Err e →
  fst (download p fileURL w) = Ret (Some e) ∧
  ∃ u, url_Parse fileURL = Ok u ∧
       stdout (issued (download p fileURL) w) =
         fileURL +:+ newline +:+ Path u +:+ newline
         +:+ fmt_Sprint_strings (strings_Split (Path u) "/") +:+ newline.
Proof.
  intros Hin Hget.
  destruct (download_request_inv p fileURL w c f Hin) as (u & kept & Hparse & Htarget & ->).
  pose proof (download_run p fileURL w) as Hrun.
  rewrite Hparse in Hrun. cbn zeta in Hrun. rewrite Htarget, Hget in Hrun.
  rewrite (issued_emits _ _ _ _ Hrun), Hrun. split; [reflexivity |].
  exists u. split; [exact Hparse |].
  cbn [stdout]. by rewrite append_nil_r, !append_assoc.
Qed.

Lemma download_transport_error_witness :
  (mkClient "https://host/a/b" "" "" "" "", "foo-1.0.0.tgz")
    ∈ requests (issued (@download Offline.platform pushCmd_zero "cm://host/a/b/foo-1.0.0.tgz")
                  Example.world) ∧
  @cm_DownloadFile Offline.platform (mkClient "https://host/a/b" "" "" "" "") "foo-1.0.0.tgz"
    = Err Offline.refused ∧
  fst (@download Offline.platform pushCmd_zero "cm://host/a/b/foo-1.0.0.tgz" Example.world)
    = Ret (Some Offline.refused).
Proof.
  assert (Hin : (mkClient "https://host/a/b" "" "" "" "", "foo-1.0.0.tgz")
                  ∈ requests (issued (@download Offline.platform pushCmd_zero
                                        "cm://host/a/b/foo-1.0.0.tgz") Example.world)).
  { vm_compute. constructor. }
  split; [exact Hin |]. split; [reflexivity |].
  exact (proj1 (@download_transport_error Offline.platform _ _ _ _ _ _ Hin eq_refl)).
Defined.

Lemma DownloadTarget_some (parts : list string) :
  2 ≤ len parts → ∃ t, DownloadTarget parts = Some t.
Proof.
  intros Hlen. unfold DownloadTarget, len in *. rewrite <- (length_reverse parts) in Hlen.
  destruct (reverse parts) as [| file [| dir rest]]; cbn [length] in Hlen; try lia.
  destruct (String.eqb dir "charts"); eauto.
Qed.

(** [download] sends at most one request, and it sends one exactly when the
    URI parses and its path contains a slash. *)
Theorem download_single_request `{Platform} (p : pushCmd) (fileURL : string) (w : World) :
  (length (requests (issued (download p fileURL) w)) ≤ 1)%nat ∧
  (requests (issued (download p fileURL) w) ≠ [] ↔
   ∃ u, url_Parse fileURL = Ok u ∧ Go.mem "/" (Path u) = true).
Proof.
  pose proof (download_run p fileURL w) as Hrun.
  destruct (url_Parse fileURL) as [u | e].
  - cbn zeta in Hrun.
    destruct (DownloadTarget (strings_Split (Path u) "/")) as [[filePath kept] |] eqn:Htarget.
    + assert (Hslash : Go.mem "/" (Path u) = true).
      { destruct (Go.mem "/" (Path u)) eqn:Hmem; [reflexivity |].
        apply Split_few_segments in Hmem.
        rewrite (DownloadTarget_few _ Hmem) in Htarget. discriminate. }
      destruct (cm_DownloadFile _ _) in Hrun;
        rewrite (issued_emits _ _ _ _ Hrun); cbn [requests app length];
        (split; [lia |]); (split; [intros _; eauto | discriminate]).
    + rewrite (issued_emits _ _ _ _ Hrun). cbn [requests length]. split; [lia |].
      split; [contradiction |].
      intros (u' & Hu & Hmem). injection Hu as <-.
      destruct (DownloadTarget_some (strings_Split (Path u) "/")) as [t Ht].
      * destruct (Z.lt_ge_cases (len (strings_Split (Path u) "/")) 2) as [Hlt |]; [| lia].
        apply Split_few_segments in Hlt. congruence.
      * congruence.
  - rewrite (issued_emits _ _ _ _ Hrun). cbn [requests length]. split; [lia |].
    split; [contradiction |]. intros (u & Hu & _). discriminate.
Qed.

Lemma concat_cons (sep h : string) (t : list string) :
  t ≠ [] → String.concat sep (h :: t) = h +:+ sep +:+ String.concat sep t.
Proof. destruct t; [contradiction | reflexivity]. Qed.

Lemma concat_snoc_pair (sep : string) (l : list string) (a b : string) :
  String.concat sep (l ++ [a; b]) = String.concat sep (l ++ [a +:+ sep +:+ b]).
Proof.
  induction l as [| h l IH]; [reflexivity |].
  cbn [app]. rewrite !concat_cons by (by destruct l). by rewrite IH.
Qed.

(** Joining the segments of a path gives the path back. *)
Lemma Join_split_from (s cur : string) :
  strings_Join (split_from "/" 0 cur s) "/" = cur +:+ s.
Proof.
  unfold strings_Join. revert cur. induction s as [| c s IH]; intros cur.
  - cbn. by rewrite append_nil_r.
  - cbn [split_from String.prefix].
    destruct (ascii_dec "/" c) as [<- | Hne].
    + replace (String.prefix "" s) with true by (by destruct s).
      change (String.length "/" - 1)%nat with 0%nat.
      rewrite concat_cons.
      * rewrite IH. reflexivity.
      * pose proof (split_from_nonempty "/" 0 "" s) as Hlen.
        destruct (split_from "/" 0 "" s); [cbn in Hlen; lia | discriminate].
    + rewrite IH, append_assoc. reflexivity.
Qed.

Lemma Join_Split (s : string) : strings_Join (strings_Split s "/") "/" = s.
Proof. unfold strings_Split. cbn iota. apply Join_split_from. Qed.

(** Nothing of the path is lost or repeated: the segments kept for the base
    path, followed by the file path that is requested, joined with
    slashes, are the path of the parsed URI. *)
Theorem download_path_preserved `{Platform} (p : pushCmd) (fileURL : string) (w : World)
    (c : Client) (f : string) :
  (c, f) ∈ requests (issued (download p fileURL) w) →
  ∃ (u : URL) (kept : list string),
    url_Parse fileURL = Ok u ∧
    cm_url c = URL_String (set_Scheme (if useHTTP p then "http" else "https")
                             (set_Path (strings_Join kept "/") u)) ∧
    strings_Join (kept ++ [f]) "/" = Path u.
Proof.
  intros Hin.
  destruct (download_request_inv p fileURL w c f Hin) as (u & kept & Hparse & Htarget & ->).
  exists u, kept. split; [exact Hparse |]. split; [reflexivity |].
  rewrite <- (Join_Split (Path u)).
  unfold DownloadTarget in Htarget.
  destruct (reverse (strings_Split (Path u) "/")) as [| file [| dir rest]] eqn:Hrev;
    try discriminate.
  assert (Hparts : strings_Split (Path u) "/" = reverse rest ++ [dir; file]).
  { rewrite <- (reverse_involutive (strings_Split (Path u) "/")), Hrev.
    rewrite !reverse_cons, <- app_assoc. reflexivity. }
  rewrite Hparts.
  destruct (String.eqb_spec dir "charts") as [-> | _]; injection Htarget as <- <-.
  - unfold strings_Join. rewrite concat_snoc_pair. reflexivity.
  - rewrite reverse_cons, <- app_assoc. reflexivity.
Qed.

Lemma download_path_preserved_witness :
  (mkClient "https://host/a/b" "" "" "" "", "charts/foo-1.0.0.tgz")
    ∈ requests (issued (@download Example.platform pushCmd_zero
                          "cm://host/a/b/charts/foo-1.0.0.tgz") Example.world) ∧
  strings_Join ([""; "a"; "b"] ++ ["charts/foo-1.0.0.tgz"]) "/" = "/a/b/charts/foo-1.0.0.tgz" ∧
  ∃ (u : URL) (kept : list string),
    @url_Parse Example.platform "cm://host/a/b/charts/foo-1.0.0.tgz" = Ok u ∧
    "https://host/a/b" = @URL_String Example.platform
                           (set_Scheme "https" (set_Path (strings_Join kept "/") u)) ∧
    strings_Join (kept ++ ["charts/foo-1.0.0.tgz"]) "/" = Path u.
Proof.
  assert (Hin : (mkClient "https://host/a/b" "" "" "" "", "charts/foo-1.0.0.tgz")
                  ∈ requests (issued (@download Example.platform pushCmd_zero
                                        "cm://host/a/b/charts/foo-1.0.0.tgz") Example.world)).
  { vm_compute. constructor. }
  split; [exact Hin |]. split; [reflexivity |].
  exact (@download_path_preserved Example.platform _ _ _ _ _ Hin).
Defined.

(** ** PushFlow: the disk and the order of events *)

(** [push] never changes the stored repositories.  Without a temporary
    directory it leaves the disk as it was.  With one, the disk afterwards
    holds nothing that the packaging step did not leave and still holds all
    that it left outside the directory; and when the removal succeeds it
    is exactly what the packaging step left, less the directory and what is
    below it. *)
Theorem push_frame `{Platform} (p : pushCmd) (w : World) :
  repositories (snd (push p w)) = repositories w ∧
  ((∀ tmp, MkdirTemp tmp ∉ issued (push p) w) → disk (snd (push p w)) = disk w) ∧
  (∀ tmp,
     MkdirTemp tmp ∈ issued (push p) w →
     ∃ chart : Chart,
       helm_GetChartByName (chartName p) = Ok chart ∧
       let d :=
         snd (helm_CreateChartPackage
                (if String.eqb (chartVersion p) "" then chart
                 else SetVersion (chartVersion p) chart)
                tmp ({[tmp]} ∪ disk w)) in
       (∀ q, q ∈ disk (snd (push p w)) → q ∈ d) ∧
       (∀ q, within tmp q = false → q ∈ d → q ∈ disk (snd (push p w))) ∧
       (os_RemoveAll_fault tmp d = None →
        ∀ q, q ∈ disk (snd (push p w)) ↔ within tmp q = false ∧ q ∈ d)).
Proof.
  assert (Hversion : ∀ chart : Chart,
             (if String.eqb (chartVersion p) "" then chart
              else SetVersion (chartVersion p) chart)
             = (if negb (String.eqb (chartVersion p) "")
                then SetVersion (chartVersion p) chart else chart))
    by (intros chart; by destruct (String.eqb (chartVersion p) "")).
  assert (Hdisk : ∀ (name : string) (d : gset string),
             (∀ q, q ∈ remaining name d → q ∈ d) ∧
             (∀ q, within name q = false → q ∈ d → q ∈ remaining name d) ∧
             (os_RemoveAll_fault name d = None →
              ∀ q, q ∈ remaining name d ↔ within name q = false ∧ q ∈ d)).
  { intros name d. split; [apply remaining_subseteq |].
    split; [apply remaining_outside |]. intros Hok q. by apply remaining_removed. }
  push_cases p w;
    first [ rewrite (issued_unchanged _ _ _ Hrun)
          | rewrite (issued_of_run _ _ _ _ _ Hrun eq_refl) ];
    rewrite Hrun; cbn [snd repositories disk];
    (split; [reflexivity |]); split;
    try (intros _; reflexivity);
    try (intros tmp Hin; inversion Hin; fail).
  - intros Hno. exfalso. eapply Hno. left.
  - intros tmp Hin. destruct (StatusCode resp =? 201); the_directory Hin;
      exists chart; (split; [reflexivity |]); cbn zeta; rewrite Hversion, Hpack; apply Hdisk.
  - intros Hno. exfalso. eapply Hno. left.
  - intros tmp Hin. the_directory Hin.
    exists chart. split; [reflexivity |]. cbn zeta. rewrite Hversion, Hpack. apply Hdisk.
  - intros Hno. exfalso. eapply Hno. left.
  - intros tmp Hin. the_directory Hin.
    exists chart. split; [reflexivity |]. cbn zeta. rewrite Hversion, Hpack. apply Hdisk.
Qed.

(** The package is uploaded while its directory is there: the upload comes
    after the creation of the temporary directory and before its removal. *)
Theorem push_upload_between `{Platform} (p : pushCmd) (w : World) (c : Client) (path : string) :
  (c, path) ∈ uploads (issued (push p) w) →
  ∃ (tmp : string) (before after : list Event),
    issued (push p) w =
      MkdirTemp tmp :: before ++ UploadChartPackage c path :: after ++ [RemoveAll tmp].
Proof.
  push_cases p w;
    first [ rewrite (issued_unchanged _ _ _ Hrun)
          | rewrite (issued_of_run _ _ _ _ _ Hrun eq_refl) ];
    try (cbn [uploads app]; intros Hin; inversion Hin; fail).
  - intros Hin.
    assert (Heq : (c, path) = (client, pkg)).
    { revert Hin. destruct (StatusCode resp =? 201); cbn [uploads app];
        intros Hin; by apply list_elem_of_singleton in Hin. }
    injection Heq as -> ->. eexists _, [_], [_]. reflexivity.
  - cbn [uploads app]. intros Hin. apply list_elem_of_singleton in Hin.
    injection Hin as -> ->. eexists _, [_], []. reflexivity.
Qed.

Lemma push_upload_between_witness :
  (mkClient "https://charts.example.com" "stored" "secret" "" "",
   "/tmp/helm-push-42/mychart-0.1.0.tgz")
    ∈ uploads (issued (@push Offline.platform
                         (set_repoName "chartmuseum" (set_chartName "mychart" pushCmd_zero)))
                 Example.world) ∧
  fst (@push Offline.platform
         (set_repoName "chartmuseum" (set_chartName "mychart" pushCmd_zero)) Example.world)
    = Ret (Some Offline.refused) ∧
  ∃ (tmp : string) (before after : list Event),
    issued (@push Offline.platform
              (set_repoName "chartmuseum" (set_chartName "mychart" pushCmd_zero)))
           Example.world =
      MkdirTemp tmp :: before
        ++ UploadChartPackage (mkClient "https://charts.example.com" "stored" "secret" "" "")
             "/tmp/helm-push-42/mychart-0.1.0.tgz" :: after ++ [RemoveAll tmp].
Proof.
  assert (Hin : (mkClient "https://charts.example.com" "stored" "secret" "" "",
                 "/tmp/helm-push-42/mychart-0.1.0.tgz")
                  ∈ uploads (issued (@push Offline.platform
                                       (set_repoName "chartmuseum"
                                          (set_chartName "mychart" pushCmd_zero)))
                               Example.world)).
  { vm_compute. constructor. }
  split; [exact Hin |]. split; [reflexivity |].
  exact (@push_upload_between Offline.platform _ _ _ _ Hin).
Defined.
